(** * HelmRepository reconciler: a shallow embedding

    This development embeds the HelmRepository reconciler of the source
    controller (controllers/helmrepository_controller.go) and its event
    predicates (internal/predicates/helmrepository_type_predicate.go) and
    proves properties of the reconcile pipeline, of the artifact lifecycle and
    of the event filters.

    Conventions.
    - A Go pointer that may be nil is an [option]; a Go slice whose nil-ness
      the code inspects is an [option (list _)] ([None] is the nil slice,
      [Some []] the empty, allocated one).
    - Every call to a collaborator (storage, cache, API client, index client,
      event recorder) is logged, with its outcome, in the trace of the pass
      state; the collaborators themselves are the fields of a record of
      functions over an abstract world. *)

From Stdlib Require Import ZArith Ascii.
From stdpp Require Import base tactics option list strings pretty gmap.

Open Scope Z_scope.
Open Scope string_scope.

(** ** API constants (api/v1beta2, fluxcd/pkg/apis/meta) *)

Definition HelmRepositoryTypeDefault : string := "default".
Definition HelmRepositoryTypeOCI : string := "oci".
Definition SourceFinalizer : string := "finalizers.fluxcd.io".

Definition StorageOperationFailedCondition : string := "StorageOperationFailed".
Definition FetchFailedCondition : string := "FetchFailed".
Definition ArtifactOutdatedCondition : string := "ArtifactOutdated".
Definition ArtifactInStorageCondition : string := "ArtifactInStorage".
Definition ReadyCondition : string := "Ready".
Definition ReconcilingCondition : string := "Reconciling".
Definition StalledCondition : string := "Stalled".

Definition ProgressingReason : string := "Progressing".
Definition SucceededReason : string := "Succeeded".
Definition FailedReason : string := "Failed".
Definition AuthenticationFailedReason : string := "AuthenticationFailed".
Definition URLInvalidReason : string := "URLInvalid".
Definition IndexationFailedReason : string := "IndexationFailed".
Definition DirCreationFailedReason : string := "DirCreationFailed".
Definition ArchiveOperationFailedReason : string := "ArchiveOperationFailed".
Definition ArtifactUpToDateReason : string := "ArtifactUpToDate".
Definition CacheOperationFailedReason : string := "CacheOperationFailed".
Definition SymlinkUpdateFailedReason : string := "SymlinkUpdateFailed".

Definition EventTypeNormal : string := "Normal".
Definition EventTypeWarning : string := "Warning".
Definition EventTypeTrace : string := "Trace".

Definition ReconcileRequestAnnotation : string := "reconcile.fluxcd.io/requestedAt".

(** ** Data model *)

(** sourcev1.Artifact. *)
Record Artifact := mkArtifact {
  art_Path : string;
  art_URL : string;
  art_Revision : string;
  art_Checksum : string;
  art_Digest : string;
  art_LastUpdateTime : Z;
  art_Size : option Z
}.

(** metav1.Condition. *)
Record Condition := mkCondition {
  cond_Type : string;
  cond_Status : string;
  cond_Reason : string;
  cond_Message : string
}.

(** sourcev1.HelmRepositorySpec. *)
Record HelmRepositorySpec := mkSpec {
  spec_URL : string;
  spec_SecretRef : option string;
  spec_PassCredentials : bool;
  spec_Timeout : Z;
  spec_Suspend : bool;
  spec_Type : string
}.

(** sourcev1.HelmRepositoryStatus. *)
Record HelmRepositoryStatus := mkStatus {
  status_ObservedGeneration : Z;
  status_Conditions : option (list Condition);
  status_URL : string;
  status_Artifact : option Artifact;
  status_LastHandledReconcileAt : string
}.

(** sourcev1.HelmRepository with the parts of its ObjectMeta the code reads.
    [meta_DeletionTimestamp] is a [*metav1.Time]: nil, or an instant counted
    from Go's zero time. *)
Record HelmRepository := mkHelmRepository {
  hr_Kind : string;
  meta_Name : string;
  meta_Namespace : string;
  meta_Generation : Z;
  meta_DeletionTimestamp : option Z;
  meta_Finalizers : list string;
  meta_Annotations : gmap string string;
  hr_Spec : HelmRepositorySpec;
  hr_Status : HelmRepositoryStatus
}.

Definition set_Status (f : HelmRepositoryStatus -> HelmRepositoryStatus)
    (o : HelmRepository) : HelmRepository :=
  mkHelmRepository (hr_Kind o) (meta_Name o) (meta_Namespace o)
    (meta_Generation o) (meta_DeletionTimestamp o) (meta_Finalizers o)
    (meta_Annotations o) (hr_Spec o) (f (hr_Status o)).

Definition set_Finalizers (fs : list string) (o : HelmRepository) : HelmRepository :=
  mkHelmRepository (hr_Kind o) (meta_Name o) (meta_Namespace o)
    (meta_Generation o) (meta_DeletionTimestamp o) fs
    (meta_Annotations o) (hr_Spec o) (hr_Status o).

Definition with_Artifact (a : option Artifact) (s : HelmRepositoryStatus) :=
  mkStatus (status_ObservedGeneration s) (status_Conditions s) (status_URL s)
    a (status_LastHandledReconcileAt s).

Definition with_URL (u : string) (s : HelmRepositoryStatus) :=
  mkStatus (status_ObservedGeneration s) (status_Conditions s) u
    (status_Artifact s) (status_LastHandledReconcileAt s).

Definition with_Conditions (c : option (list Condition)) (s : HelmRepositoryStatus) :=
  mkStatus (status_ObservedGeneration s) c (status_URL s)
    (status_Artifact s) (status_LastHandledReconcileAt s).

(** obj.GetArtifact(). *)
Definition GetArtifact (o : HelmRepository) : option Artifact :=
  status_Artifact (hr_Status o).

(** IsZero on the metav1.Time pointer: a nil pointer or the zero instant. *)
Definition DeletionTimestamp_IsZero (o : HelmRepository) : bool :=
  match meta_DeletionTimestamp o with
  | None => true
  | Some t => bool_decide (t = 0)
  end.

(** ** controllerutil finalizer helpers (controller-runtime) *)

Definition ContainsFinalizer (o : HelmRepository) (finalizer : string) : bool :=
  bool_decide (finalizer ∈ meta_Finalizers o).

Definition AddFinalizer (o : HelmRepository) (finalizer : string) : HelmRepository :=
  if ContainsFinalizer o finalizer then o
  else set_Finalizers (meta_Finalizers o ++ [finalizer])%list o.

Definition RemoveFinalizer (o : HelmRepository) (finalizer : string) : HelmRepository :=
  set_Finalizers (filter (λ f, f ≠ finalizer) (meta_Finalizers o)) o.

(** ** Events and predicates (internal/predicates) *)

(** A client.Object as the predicates see it: the nil interface, a
    HelmRepository, or an object of another kind. *)
Inductive client_Object :=
| NilObject
| HelmRepositoryObject (hr : HelmRepository)
| OtherObject (kind : string).

Record CreateEvent := mkCreateEvent { ce_Object : client_Object }.
Record UpdateEvent := mkUpdateEvent { ue_ObjectOld : client_Object; ue_ObjectNew : client_Object }.
Record DeleteEvent := mkDeleteEvent { de_Object : client_Object; de_DeleteStateUnknown : bool }.
Record GenericEvent := mkGenericEvent { ge_Object : client_Object }.

(** predicate.Predicate: one method per event kind. *)
Class Predicate (P : Type) := {
  Create : P -> CreateEvent -> bool;
  Update : P -> UpdateEvent -> bool;
  Delete : P -> DeleteEvent -> bool;
  Generic : P -> GenericEvent -> bool
}.

(** predicate.Funcs: optional function fields. *)
Record Funcs := mkFuncs {
  CreateFunc : option (CreateEvent -> bool);
  DeleteFunc : option (DeleteEvent -> bool);
  UpdateFunc : option (UpdateEvent -> bool);
  GenericFunc : option (GenericEvent -> bool)
}.

(** The zero value of predicate.Funcs. *)
Definition Funcs_zero : Funcs := mkFuncs None None None None.

(** Modelled from the spec: the methods of the framework's predicate.Funcs
    (controller-runtime, not part of the sources) call the function field when
    it is set and otherwise return a fixed pass-through value, the framework's
    baseline behaviour, which is [true]. *)
Definition Funcs_call {E : Type} (f : option (E -> bool)) (e : E) : bool :=
  match f with
  | Some g => g e
  | None => true
  end.

#[global] Instance Funcs_Predicate : Predicate Funcs := {
  Create p e := Funcs_call (CreateFunc p) e;
  Update p e := Funcs_call (UpdateFunc p) e;
  Delete p e := Funcs_call (DeleteFunc p) e;
  Generic p e := Funcs_call (GenericFunc p) e
}.

(** helmRepositoryTypeFilter. *)
Definition helmRepositoryTypeFilter (repositoryType : string) (o : client_Object) : bool :=
  match o with
  | NilObject => false
  | OtherObject _ => false
  | HelmRepositoryObject hr => bool_decide (spec_Type (hr_Spec hr) = repositoryType)
  end.

(** HelmRepositoryTypePredicate. *)
Record HelmRepositoryTypePredicate := mkTypePredicate {
  RepositoryType : string;
  tp_Funcs : Funcs
}.

#[global] Instance HelmRepositoryTypePredicate_Predicate :
    Predicate HelmRepositoryTypePredicate := {
  Create h e := helmRepositoryTypeFilter (RepositoryType h) (ce_Object e);
  Update h e :=
    match ue_ObjectNew e with
    | NilObject => false
    | OtherObject _ => false
    | HelmRepositoryObject newObj =>
        bool_decide (spec_Type (hr_Spec newObj) = RepositoryType h)
    end;
  Delete h e := helmRepositoryTypeFilter (RepositoryType h) (de_Object e);
  Generic h e := helmRepositoryTypeFilter (RepositoryType h) (ge_Object e)
}.

(** hasEmptyHelmRepositoryStatus. *)
Definition hasEmptyHelmRepositoryStatus (obj : HelmRepository) : bool :=
  bool_decide (status_ObservedGeneration (hr_Status obj) = 0) &&
  bool_decide (status_Conditions (hr_Status obj) = None) &&
  bool_decide (status_URL (hr_Status obj) = "") &&
  match status_Artifact (hr_Status obj) with None => true | Some _ => false end &&
  bool_decide (status_LastHandledReconcileAt (hr_Status obj) = "").

(** HelmRepositoryOCIRequireMigration. *)
Definition HelmRepositoryOCIRequireMigration (o : client_Object) : bool :=
  match o with
  | NilObject => false
  | OtherObject _ => false
  | HelmRepositoryObject hr =>
      if negb (bool_decide (spec_Type (hr_Spec hr) = HelmRepositoryTypeOCI)) then false
      else if ContainsFinalizer hr SourceFinalizer || negb (hasEmptyHelmRepositoryStatus hr)
      then true
      else false
  end.

(** HelmRepositoryOCIMigrationPredicate: Create, Update and Delete are its
    own methods; Generic is promoted from the embedded predicate.Funcs. *)
Record HelmRepositoryOCIMigrationPredicate := mkMigrationPredicate {
  mp_Funcs : Funcs
}.

#[global] Instance HelmRepositoryOCIMigrationPredicate_Predicate :
    Predicate HelmRepositoryOCIMigrationPredicate := {
  Create _ e := HelmRepositoryOCIRequireMigration (ce_Object e);
  Update _ e := HelmRepositoryOCIRequireMigration (ue_ObjectNew e);
  Delete _ e := HelmRepositoryOCIRequireMigration (de_Object e);
  Generic p e := Generic (mp_Funcs p) e
}.

(** A predicate value packed with its methods, as an interface value. *)
Record AnyPredicate := mkAnyPredicate {
  any_Create : CreateEvent -> bool;
  any_Update : UpdateEvent -> bool;
  any_Delete : DeleteEvent -> bool;
  any_Generic : GenericEvent -> bool
}.

Definition pack {P : Type} `{Predicate P} (p : P) : AnyPredicate :=
  mkAnyPredicate (Create p) (Update p) (Delete p) (Generic p).

(** predicate.And and predicate.Or (controller-runtime): all, respectively
    one, of the given predicates accept the event. *)
Definition predicate_And (ps : list AnyPredicate) : AnyPredicate :=
  mkAnyPredicate
    (λ e, forallb (λ p, any_Create p e) ps)
    (λ e, forallb (λ p, any_Update p e) ps)
    (λ e, forallb (λ p, any_Delete p e) ps)
    (λ e, forallb (λ p, any_Generic p e) ps).

Definition predicate_Or (ps : list AnyPredicate) : AnyPredicate :=
  mkAnyPredicate
    (λ e, existsb (λ p, any_Create p e) ps)
    (λ e, existsb (λ p, any_Update p e) ps)
    (λ e, existsb (λ p, any_Delete p e) ps)
    (λ e, existsb (λ p, any_Generic p e) ps).

(** The event filter installed by SetupWithManagerAndOptions. The two change
    predicates (GenerationChangedPredicate, ReconcileRequestedPredicate) are
    framework predicates and stay abstract. *)
Definition eventFilter (generationChanged reconcileRequested : AnyPredicate) : AnyPredicate :=
  predicate_And
    [ predicate_Or
        [ pack (mkTypePredicate HelmRepositoryTypeDefault Funcs_zero);
          pack (mkTypePredicate "" Funcs_zero) ];
      predicate_Or [ generationChanged; reconcileRequested ] ].

(** ** Results and errors (internal/reconcile, internal/error) *)

(** sreconcile.Result. *)
Inductive Result := ResultEmpty | ResultRequeue | ResultSuccess.

#[global] Instance Result_eq_dec : EqDecision Result.
Proof. solve_decision. Defined.

(** Go error values: an error handed back by a collaborator, a url.Error, and
    the controller's own serror.Event and serror.Stalling, which wrap a cause
    (fmt.Errorf with the verb w) and carry a reason. *)
Inductive error :=
| Err (msg : string)
| UrlError (msg : string)
| Event (reason : string) (context : string) (cause : error)
| Stalling (reason : string) (context : string) (cause : error).

(** What fmt.Errorf wraps when the operand of the verb w is a nil error. *)
Definition nil_cause : error := Err "%!w(<nil>)".

(** err.Error(). *)
Fixpoint error_Error (e : error) : string :=
  match e with
  | Err msg => msg
  | UrlError msg => msg
  | Event _ ctx c => ctx ++ ": " ++ error_Error c
  | Stalling _ ctx c => ctx ++ ": " ++ error_Error c
  end.

(** What a (sub)reconciler returns: (sreconcile.Result, error). *)
Definition Ret : Type := Result * option error.

(** ** Conditions (fluxcd/pkg/runtime/conditions) *)

Definition GetConditions (o : HelmRepository) : list Condition :=
  default [] (status_Conditions (hr_Status o)).

Definition SetConditions (cs : list Condition) (o : HelmRepository) : HelmRepository :=
  set_Status (with_Conditions (Some cs)) o.

(** conditions.Get: the condition of the given type, or nil. *)
Definition conditions_Get (o : HelmRepository) (t : string) : option Condition :=
  List.find (λ c, bool_decide (cond_Type c = t)) (GetConditions o).

(** conditions.Delete: a fresh slice with every condition of another type. *)
Definition conditions_Delete (o : HelmRepository) (t : string) : HelmRepository :=
  SetConditions (filter (λ c, cond_Type c ≠ t) (GetConditions o)) o.

Fixpoint set_condition (c : Condition) (cs : list Condition) : list Condition :=
  match cs with
  | [] => [c]
  | x :: xs => if bool_decide (cond_Type x = cond_Type c) then c :: xs
               else x :: set_condition c xs
  end.

(** conditions.MarkTrue, once its message is formatted: the condition of that
    type is replaced or appended (the library's re-ordering of the slice and
    the transition time are not modelled). The library formats the message
    with fmt.Sprintf from a format and its operands. [message] is the result:
    where the source gives a literal format with string operands under the
    verb s it is written out as a concatenation; where the source passes a
    run-time text as the format, with no operand, it is that text through
    [fmt_Sprintf]. *)
Definition conditions_MarkTrue (o : HelmRepository) (t reason message : string)
    : HelmRepository :=
  SetConditions (set_condition (mkCondition t "True" reason message) (GetConditions o)) o.

(** ** The index client (internal/helm/repository) *)

(** repository.ChartRepository: the URL, the path of the downloaded index, and
    the parsed index once loaded. *)
Record ChartRepository := mkChartRepository {
  cr_URL : string;
  cr_Path : string;
  cr_Index : option string
}.

Definition ChartRepository_zero : ChartRepository := mkChartRepository "" "" None.
Definition Artifact_zero : Artifact := mkArtifact "" "" "" "" "" 0 None.

(** ** Library functions the reconciler calls but does not define

    Pure helpers of other packages, taken as parameters:
    digest.Digest's Validate (true when it returns nil), Algorithm and Hex
    (opencontainers/go-digest); intdigest.Canonical;
    sourcev1.TransformLegacyRevision; ChartRepository.Digest;
    sreconcile.LowestRequeuingResult and sreconcile.FailureRecovery;
    rreconcile.ProgressiveStatus, which only rewrites the condition slice;
    the secret decoders of internal/helm/getter; and fmt.Sprintf applied to
    a format with no operand, which is how conditions.MarkTrue formats a
    message given without operands: a verb in the text is not kept as it is
    (a percent sign followed by a verb x becomes %!x(MISSING)). *)
Record Library := mkLibrary {
  fmt_Sprintf : string -> string;
  digest_Validate : string -> bool;
  digest_Algorithm : string -> string;
  digest_Hex : string -> string;
  Canonical : string;
  TransformLegacyRevision : string -> string;
  ChartRepository_Digest : ChartRepository -> string -> string;
  LowestRequeuingResult : Result -> Result -> Result;
  FailureRecovery : HelmRepository -> HelmRepository -> list string -> bool;
  ProgressiveStatus :
    bool -> option (list Condition) -> string -> string -> option (list Condition);
  ClientOptionsFromSecret : gmap string string -> error + list string;
  TLSClientConfigFromSecret : gmap string string -> string -> error + option string
}.

(** ** Effects: one entry per collaborator call, with its outcome *)

Inductive Effect :=
| EPatch (err : option error)
| EGetSecret (err : option error)
| ENewChartRepository (err : option error)
| ECacheIndex (err : option error)
| ELoadFromPath (err : option error)
| EClear (err : option error)
| EArtifactExist (found : bool)
| ERemoveAll (err : option error)
| EGarbageCollect (err : option error)
| EMkdirAll (err : option error)
| ELock (err : option error)
| EUnlock
| ECopyFromPath (err : option error)
| ECacheSet (key : string) (err : option error)
| ECacheSetExpiration (key : string)
| ESymlink (url : string) (err : option error)
| EEvent (eventType : string) (reason : string).

(** Effects that write to the artifact storage. *)
Definition is_storage_write (e : Effect) : bool :=
  match e with
  | EMkdirAll _ | ECopyFromPath _ | ESymlink _ _ => true
  | _ => false
  end.

(** Effects that populate the index cache. *)
Definition is_cache_set (e : Effect) : bool :=
  match e with
  | ECacheSet _ _ => true
  | _ => false
  end.

(** ** The reconciler and its collaborators

    HelmRepositoryReconciler: the API client, the Storage, the optional Cache
    with its TTL, and the constructors of the index client, each a function of
    the world [W] it acts on. Storage.Symlink hands back a URL or an error,
    see [Symlink_result]. *)
Record HelmRepositoryReconciler (W : Type) := mkReconciler {
  Client_Patch : W -> HelmRepository -> option error * W;
  Client_GetSecret : W -> string -> string -> (error + gmap string string) * W;
  NewChartRepository :
    W -> string -> option string -> list string -> (error + ChartRepository) * W;
  CacheIndex : W -> ChartRepository -> (option error * ChartRepository) * W;
  LoadFromPath : W -> ChartRepository -> (option error * ChartRepository) * W;
  Clear : W -> ChartRepository -> (option error * ChartRepository) * W;
  Storage_ArtifactExist : W -> Artifact -> bool;
  Storage_SetArtifactURL : W -> Artifact -> Artifact;
  Storage_SetHostname : W -> string -> string;
  Storage_NewArtifactFor : W -> string -> string -> string -> string -> string -> Artifact;
  Storage_RemoveAll : W -> Artifact -> (string * option error) * W;
  Storage_GarbageCollect : W -> Artifact -> (list string * option error) * W;
  Storage_MkdirAll : W -> Artifact -> option error * W;
  Storage_Lock : W -> Artifact -> option error * W;
  Storage_Unlock : W -> Artifact -> W;
  Storage_CopyFromPath : W -> Artifact -> string -> (option error * Artifact) * W;
  Storage_Symlink : W -> Artifact -> string -> (error + string) * W;
  Cache : bool;
  TTL : Z;
  Cache_SetExpiration : W -> string -> Z -> W;
  Cache_Set : W -> string -> string -> Z -> option error * W
}.

Arguments Client_Patch {W}.
Arguments Client_GetSecret {W}.
Arguments NewChartRepository {W}.
Arguments CacheIndex {W}.
Arguments LoadFromPath {W}.
Arguments Clear {W}.
Arguments Storage_ArtifactExist {W}.
Arguments Storage_SetArtifactURL {W}.
Arguments Storage_SetHostname {W}.
Arguments Storage_NewArtifactFor {W}.
Arguments Storage_RemoveAll {W}.
Arguments Storage_GarbageCollect {W}.
Arguments Storage_MkdirAll {W}.
Arguments Storage_Lock {W}.
Arguments Storage_Unlock {W}.
Arguments Storage_CopyFromPath {W}.
Arguments Storage_Symlink {W}.
Arguments Cache {W}.
Arguments TTL {W}.
Arguments Cache_SetExpiration {W}.
Arguments Cache_Set {W}.

(** Modelled from the spec: Storage.Symlink (controllers/storage.go, not part
    of the sources) refreshes the alias and returns its URL with a nil error,
    or fails and returns an error with no URL (the empty string), so that the
    published URL is left unchanged when the alias refresh fails. This is the
    pair (url, err) the Go call returns. *)
Definition Symlink_result (res : error + string) : string * option error :=
  match res with
  | inl e => ("", Some e)
  | inr url => (url, None)
  end.

(** The state of one reconcile pass: the working copy of the object, the two
    slots the sub-reconcilers share by pointer (candidate artifact and index
    handle), the world, and the trace of collaborator calls so far. *)
Record PassState (W : Type) := mkPassState {
  obj : HelmRepository;
  artifact : Artifact;
  chartRepo : ChartRepository;
  world : W;
  trace : list Effect
}.

Arguments mkPassState {W}.
Arguments obj {W}.
Arguments artifact {W}.
Arguments chartRepo {W}.
Arguments world {W}.
Arguments trace {W}.

Section PassStateOps.
Context {W : Type}.

Definition upd_obj (f : HelmRepository -> HelmRepository) (st : PassState W) :=
  mkPassState (f (obj st)) (artifact st) (chartRepo st) (world st) (trace st).

Definition set_artifact (a : Artifact) (st : PassState W) :=
  mkPassState (obj st) a (chartRepo st) (world st) (trace st).

Definition set_chartRepo (c : ChartRepository) (st : PassState W) :=
  mkPassState (obj st) (artifact st) c (world st) (trace st).

Definition set_world (w : W) (st : PassState W) :=
  mkPassState (obj st) (artifact st) (chartRepo st) w (trace st).

Definition log (e : Effect) (st : PassState W) :=
  mkPassState (obj st) (artifact st) (chartRepo st) (world st) (trace st ++ [e])%list.

(** The effects of the part of a pass that leads from [st] to [st']. *)
Definition new_effects (st st' : PassState W) : list Effect :=
  drop (length (trace st)) (trace st').
End PassStateOps.

(** ** The reconciler (controllers/helmrepository_controller.go) *)

(** helmRepositoryFailConditions. *)
Definition helmRepositoryFailConditions : list string :=
  [FetchFailedCondition; StorageOperationFailedCondition].

Section Reconciler.
Context {W : Type} (lib : Library) (r : HelmRepositoryReconciler W).

Abbreviation St := (PassState W).

(** helmRepositoryReconcileFunc: a sub-reconciler acts on the object and
    the two shared slots and returns a result and an error. *)
Definition helmRepositoryReconcileFunc : Type := St -> Ret * St.

(** Modelled from the spec: Artifact.HasRevision (api package, not part of
    the sources): a nil artifact matches nothing, otherwise the revisions
    match, a legacy revision format being transformed before comparison. *)
Definition HasRevision (a : option Artifact) (revision : string) : bool :=
  match a with
  | None => false
  | Some a => bool_decide (TransformLegacyRevision lib (art_Revision a)
                           = TransformLegacyRevision lib revision)
  end.

(** Modelled from the spec: Artifact.HasChecksum (api package, not part of
    the sources): a nil artifact matches nothing, otherwise the checksums
    are equal. *)
Definition HasChecksum (a : option Artifact) (checksum : string) : bool :=
  match a with
  | None => false
  | Some a => bool_decide (art_Checksum a = checksum)
  end.

(** rreconcile.ProgressiveStatus applied to the object. *)
Definition progressiveStatus (drift : bool) (reason message : string)
    (o : HelmRepository) : HelmRepository :=
  set_Status
    (with_Conditions
       (ProgressiveStatus lib drift (status_Conditions (hr_Status o)) reason message))
    o.

(** sp.Patch(ctx, obj, r.patchOptions...). *)
Definition patch (st : St) : option error * St :=
  let '(err, w) := Client_Patch r (world st) (obj st) in
  (err, log (EPatch err) (set_world w st)).

(** eventLogf: logs and records an event (the message is not kept). *)
Definition eventLogf (eventType reason : string) (st : St) : St :=
  log (EEvent eventType reason) st.

(** garbageCollect. *)
Definition garbageCollect (st : St) : option error * St :=
  let o := obj st in
  if negb (DeletionTimestamp_IsZero o)
     || (negb (bool_decide (spec_Type (hr_Spec o) = ""))
         && negb (bool_decide (spec_Type (hr_Spec o) = HelmRepositoryTypeDefault)))
  then
    let '((deleted, err), w) :=
      Storage_RemoveAll r (world st)
        (Storage_NewArtifactFor r (world st) (hr_Kind o) (meta_Namespace o)
           (meta_Name o) "" "*") in
    let st1 := log (ERemoveAll err) (set_world w st) in
    match err with
    | Some err =>
        (Some (Event "GarbageCollectionFailed"
                 "garbage collection for deleted resource failed" err), st1)
    | None =>
        let st2 :=
          if negb (bool_decide (deleted = ""))
          then eventLogf EventTypeTrace "GarbageCollectionSucceeded" st1
          else st1 in
        (* Clean status sub-resource, remove any stale conditions. *)
        (None,
         upd_obj (set_Status (λ s, with_Conditions None (with_URL "" (with_Artifact None s))))
           st2)
    end
  else
    match GetArtifact o with
    | Some a =>
        let '((delFiles, err), w) := Storage_GarbageCollect r (world st) a in
        let st1 := log (EGarbageCollect err) (set_world w st) in
        match err with
        | Some err =>
            (Some (Event "GarbageCollectionFailed"
                     "garbage collection of artifacts failed" err), st1)
        | None =>
            if bool_decide (0 < length delFiles)%nat
            then (None, eventLogf EventTypeTrace "GarbageCollectionSucceeded" st1)
            else (None, st1)
        end
    | None => (None, st)
    end.

(** reconcileDelete. *)
Definition reconcileDelete (st : St) : Ret * St :=
  match garbageCollect st with
  | (Some err, st1) =>
      (* Return the error so we retry the failed garbage collection *)
      ((ResultEmpty, Some err), st1)
  | (None, st1) =>
      let st2 :=
        if negb (DeletionTimestamp_IsZero (obj st1))
        then upd_obj (λ o, RemoveFinalizer o SourceFinalizer) st1
        else st1 in
      ((ResultEmpty, None), st2)
  end.

(** reconcileStorage. *)
Definition reconcileStorage : helmRepositoryReconcileFunc := λ st,
  (* Garbage collect previous advertised artifact(s) from storage *)
  let '(_, st1) := garbageCollect st in
  (* Determine if the advertised artifact is still in storage *)
  let '(artifactMissing, st2) :=
    match GetArtifact (obj st1) with
    | Some a =>
        let found := Storage_ArtifactExist r (world st1) a in
        let st1' := log (EArtifactExist found) st1 in
        if negb found
        then (true,
              upd_obj (λ o, conditions_Delete
                              (set_Status (λ s, with_URL "" (with_Artifact None s)) o)
                              ArtifactInStorageCondition) st1')
        else (false, st1')
    | None => (false, st1)
    end in
  match GetArtifact (obj st2) with
  | None =>
      (* Record that we do not have an artifact *)
      let msg := "building artifact" ++
                 (if artifactMissing then ": disappeared from storage" else "") in
      let st3 := upd_obj (progressiveStatus true ProgressingReason msg) st2 in
      let st4 := upd_obj (λ o, conditions_Delete o ArtifactInStorageCondition) st3 in
      match patch st4 with
      | (Some err, st5) => ((ResultEmpty, Some err), st5)
      | (None, st5) => ((ResultSuccess, None), st5)
      end
  | Some a =>
      (* Always update URLs to ensure hostname is up-to-date *)
      let st3 :=
        upd_obj (set_Status
                   (with_Artifact (Some (Storage_SetArtifactURL r (world st2) a)))) st2 in
      let st4 :=
        upd_obj (λ o, set_Status
                        (with_URL (Storage_SetHostname r (world st3)
                                     (status_URL (hr_Status o)))) o) st3 in
      ((ResultSuccess, None), st4)
  end.

(** The failure exit shared by the fetch steps of reconcileSource: mark
    FetchFailed with the error's reason and, as message format, the error's
    text; return the error. *)
Definition fetchFailed (reason : string) (e : error) (st : St) : Ret * St :=
  ((ResultEmpty, Some e),
   upd_obj (λ o, conditions_MarkTrue o FetchFailedCondition reason
                   (fmt_Sprintf lib (error_Error e))) st).

(** reconcileSource, first part: configure the client from the secret,
    construct the chart repository and fetch the index. Either a return of
    the sub-reconciler, or the repository with its downloaded index. *)
Definition reconcileSource_fetch (st : St) : (Ret + ChartRepository) * St :=
  let o := obj st in
  (* Configure Helm client to access repository *)
  let clientOpts :=
    [ "WithTimeout(" ++ pretty (spec_Timeout (hr_Spec o)) ++ ")";
      "WithURL(" ++ spec_URL (hr_Spec o) ++ ")";
      "WithPassCredentialsAll(" ++
      (if spec_PassCredentials (hr_Spec o) then "true" else "false") ++ ")" ] in
  (* Configure any authentication related options *)
  let auth : (Ret + (option string * list string)) * St :=
    match spec_SecretRef (hr_Spec o) with
    | None => (inr (None, clientOpts), st)
    | Some secretName =>
        let name := meta_Namespace o ++ "/" ++ secretName in
        let '(res, w) := Client_GetSecret r (world st) (meta_Namespace o) secretName in
        match res with
        | inl err =>
            let st1 := log (EGetSecret (Some err)) (set_world w st) in
            let '(ret, st2) :=
              fetchFailed AuthenticationFailedReason
                (Event AuthenticationFailedReason
                   ("failed to get secret '" ++ name ++ "'") err) st1 in
            (inl ret, st2)
        | inr secret =>
            let st1 := log (EGetSecret None) (set_world w st) in
            match ClientOptionsFromSecret lib secret with
            | inl err =>
                let '(ret, st2) :=
                  fetchFailed AuthenticationFailedReason
                    (Event AuthenticationFailedReason
                       "failed to configure Helm client with secret data" err) st1 in
                (inl ret, st2)
            | inr opts =>
                match TLSClientConfigFromSecret lib secret (spec_URL (hr_Spec o)) with
                | inl err =>
                    let '(ret, st2) :=
                      fetchFailed AuthenticationFailedReason
                        (Event AuthenticationFailedReason
                           "failed to create TLS client config with secret data" err) st1 in
                    (inl ret, st2)
                | inr tlsConfig => (inr (tlsConfig, (clientOpts ++ opts)%list), st1)
                end
            end
        end
    end in
  match auth with
  | (inl ret, st1) => (inl ret, st1)
  | (inr (tlsConfig, clientOpts), st1) =>
      (* Construct Helm chart repository with options and download index *)
      let '(res, w) :=
        NewChartRepository r (world st1) (spec_URL (hr_Spec o)) tlsConfig clientOpts in
      match res with
      | inl err =>
          let st2 := log (ENewChartRepository (Some err)) (set_world w st1) in
          let '(ret, st3) :=
            match err with
            | UrlError _ =>
                fetchFailed URLInvalidReason
                  (Stalling URLInvalidReason "invalid Helm repository URL" err) st2
            | _ =>
                fetchFailed FailedReason
                  (Stalling FailedReason "failed to construct Helm client" err) st2
            end in
          (inl ret, st3)
      | inr newChartRepo =>
          let st2 := log (ENewChartRepository None) (set_world w st1) in
          (* Fetch the repository index from remote. *)
          let '((err, newChartRepo'), w') := CacheIndex r (world st2) newChartRepo in
          let st3 := log (ECacheIndex err) (set_world w' st2) in
          match err with
          | Some err =>
              let '(ret, st4) :=
                fetchFailed FailedReason
                  (Event FailedReason "failed to fetch Helm repository index" err) st3 in
              (inl ret, st4)
          | None => (inr newChartRepo', st3)
          end
      end
  end.

(** The digest of the current artifact that the early comparison of
    reconcileSource uses: its Digest, or its transformed legacy Checksum
    when the Digest is empty. *)
Definition currentDigest (curArtifact : Artifact) : string :=
  if bool_decide (art_Digest curArtifact = "")
  then TransformLegacyRevision lib (art_Checksum curArtifact)
  else art_Digest curArtifact.

(** reconcileSource. *)
Definition reconcileSource : helmRepositoryReconcileFunc := λ st,
  match reconcileSource_fetch st with
  | (inl ret, st1) => (ret, st1)
  | (inr newChartRepo, st1) =>
      let st2 := set_chartRepo newChartRepo st1 in
      (* Early comparison to current Artifact. *)
      let exactMatch : option Artifact :=
        match GetArtifact (obj st2) with
        | Some curArtifact =>
            let curDig := currentDigest curArtifact in
            if digest_Validate lib curDig then
              let newDig :=
                ChartRepository_Digest lib (chartRepo st2) (digest_Algorithm lib curDig) in
              if digest_Validate lib newDig && bool_decide (newDig = curDig)
              then Some curArtifact else None
            else None
        | None => None
        end in
      match exactMatch with
      | Some curArtifact =>
          ((ResultSuccess, None),
           upd_obj (λ o, conditions_Delete o FetchFailedCondition)
             (set_artifact curArtifact st2))
      | None =>
          (* Load the cached repository index to ensure it passes validation. *)
          let '((err, repo), w) := LoadFromPath r (world st2) (chartRepo st2) in
          let st3 := log (ELoadFromPath err) (set_chartRepo repo (set_world w st2)) in
          match err with
          | Some err =>
              fetchFailed IndexationFailedReason
                (Event IndexationFailedReason
                   "failed to load Helm repository from index YAML" err) st3
          | None =>
              (* Delete any stale failure observation *)
              let st4 := upd_obj (λ o, conditions_Delete o FetchFailedCondition) st3 in
              (* Check if index has changed compared to current Artifact revision. *)
              let changed :=
                match status_Artifact (hr_Status (obj st4)) with
                | Some a =>
                    let curRev := TransformLegacyRevision lib (art_Revision a) in
                    negb (digest_Validate lib curRev)
                    || negb (bool_decide
                               (curRev = ChartRepository_Digest lib (chartRepo st4)
                                           (digest_Algorithm lib curRev)))
                | None => false
                end in
              (* Calculate revision. *)
              let revision := ChartRepository_Digest lib (chartRepo st4) (Canonical lib) in
              if negb (digest_Validate lib revision) then
                fetchFailed IndexationFailedReason
                  (Event IndexationFailedReason "failed to calculate revision" nil_cause) st4
              else
                (* Mark observations about the revision on the object. *)
                let marked : option error * St :=
                  if match status_Artifact (hr_Status (obj st4)) with
                     | None => true | Some _ => false end || changed
                  then
                    let message := "new index revision '" ++ revision ++ "'" in
                    let st5 :=
                      match GetArtifact (obj st4) with
                      | Some _ =>
                          upd_obj (λ o, conditions_MarkTrue o ArtifactOutdatedCondition
                                          "NewRevision" (fmt_Sprintf lib message)) st4
                      | None => st4
                      end in
                    patch (upd_obj (progressiveStatus true ProgressingReason
                                      ("building artifact: " ++ message)) st5)
                  else (None, st4) in
                match marked with
                | (Some err, st6) => ((ResultEmpty, Some err), st6)
                | (None, st6) =>
                    (* Create potential new artifact. *)
                    ((ResultSuccess, None),
                     set_artifact
                       (Storage_NewArtifactFor r (world st6) (hr_Kind (obj st6))
                          (meta_Namespace (obj st6)) (meta_Name (obj st6)) revision
                          ("index-" ++ digest_Hex lib revision ++ ".yaml")) st6)
                end
          end
      end
  end.

(** reconcileArtifact, from the save to storage (the lock is held) to the
    end of the function. *)
Definition reconcileArtifact_locked (st : St) : Ret * St :=
  (* Save artifact to storage. *)
  let '((err, a), w) :=
    Storage_CopyFromPath r (world st) (artifact st) (cr_Path (chartRepo st)) in
  let st1 := log (ECopyFromPath err) (set_artifact a (set_world w st)) in
  match err with
  | Some err =>
      let e := Event ArchiveOperationFailedReason "unable to save artifact to storage" err in
      ((ResultEmpty, Some e),
       upd_obj (λ o, conditions_MarkTrue o StorageOperationFailedCondition
                       ArchiveOperationFailedReason (fmt_Sprintf lib (error_Error e))) st1)
  | None =>
      (* Record it on the object. *)
      let st2 := upd_obj (set_Status (with_Artifact (Some (artifact st1)))) st1 in
      (* Cache the index if it was successfully retrieved. *)
      let st3 :=
        match Cache r, cr_Index (chartRepo st2) with
        | true, Some index =>
            let '(err, w) :=
              Cache_Set r (world st2) (art_Path (artifact st2)) index (TTL r) in
            let st' := log (ECacheSet (art_Path (artifact st2)) err) (set_world w st2) in
            match err with
            | Some _ => eventLogf EventTypeTrace CacheOperationFailedReason st'
            | None => st'
            end
        | _, _ => st2
        end in
      (* Update index symlink. *)
      let '(res, w) := Storage_Symlink r (world st3) (artifact st3) "index.yaml" in
      let '(indexURL, err) := Symlink_result res in
      let st4 := log (ESymlink indexURL err) (set_world w st3) in
      let st5 :=
        match err with
        | Some _ => eventLogf EventTypeTrace SymlinkUpdateFailedReason st4
        | None => st4
        end in
      let st6 :=
        if negb (bool_decide (indexURL = ""))
        then upd_obj (set_Status (with_URL indexURL)) st5
        else st5 in
      ((ResultSuccess, None),
       upd_obj (λ o, conditions_Delete o StorageOperationFailedCondition) st6)
  end.

(** reconcileArtifact without its deferred function. *)
Definition reconcileArtifact_body (st : St) : Ret * St :=
  if HasRevision (GetArtifact (obj st)) (art_Revision (artifact st))
     && HasChecksum (GetArtifact (obj st)) (art_Checksum (artifact st))
  then
    (* Extend TTL of the Index in the cache (if present). *)
    let st1 :=
      if Cache r
      then log (ECacheSetExpiration (art_Path (artifact st)))
             (set_world (Cache_SetExpiration r (world st) (art_Path (artifact st)) (TTL r)) st)
      else st in
    ((ResultSuccess, None), eventLogf EventTypeTrace ArtifactUpToDateReason st1)
  else
    (* Create artifact dir *)
    let '(err, w) := Storage_MkdirAll r (world st) (artifact st) in
    let st1 := log (EMkdirAll err) (set_world w st) in
    match err with
    | Some err =>
        let e := Event DirCreationFailedReason "failed to create artifact directory" err in
        ((ResultEmpty, Some e),
         upd_obj (λ o, conditions_MarkTrue o StorageOperationFailedCondition
                         DirCreationFailedReason (fmt_Sprintf lib (error_Error e))) st1)
    | None =>
        (* Acquire lock. *)
        let '(err, w) := Storage_Lock r (world st1) (artifact st1) in
        let st2 := log (ELock err) (set_world w st1) in
        match err with
        | Some err =>
            ((ResultEmpty,
              Some (Event FailedReason "failed to acquire lock for artifact" err)), st2)
        | None =>
            let '(ret, st3) := reconcileArtifact_locked st2 in
            (* defer unlock() *)
            (ret, log EUnlock (set_world (Storage_Unlock r (world st3) (artifact st2)) st3))
        end
    end.

(** The deferred function of reconcileArtifact: set ArtifactInStorage if
    there is no drift, and clear the temporary index handle. *)
Definition reconcileArtifact_deferred (st : St) : St :=
  let st1 :=
    if HasRevision (GetArtifact (obj st)) (art_Revision (artifact st))
    then upd_obj (λ o, conditions_MarkTrue
                         (conditions_Delete o ArtifactOutdatedCondition)
                         ArtifactInStorageCondition SucceededReason
                         ("stored artifact: revision '" ++ art_Revision (artifact st) ++ "'"))
           st
    else st in
  let '((err, repo), w) := Clear r (world st1) (chartRepo st1) in
  log (EClear err) (set_chartRepo repo (set_world w st1)).

(** reconcileArtifact. *)
Definition reconcileArtifact : helmRepositoryReconcileFunc := λ st,
  let '(ret, st1) := reconcileArtifact_body st in
  (ret, reconcileArtifact_deferred st1).

(** notify (the event's message and annotations are not kept). *)
Definition notify (oldObj : HelmRepository) (res : Result) (resErr : option error)
    (st : St) : St :=
  let newObj := obj st in
  match status_Artifact (hr_Status newObj) with
  | Some newArtifact =>
      if bool_decide (resErr = None) && bool_decide (res = ResultSuccess) then
        let oldChecksum :=
          match GetArtifact oldObj with
          | Some a => art_Checksum a
          | None => ""
          end in
        (* Notify on new artifact and failure recovery. *)
        if negb (bool_decide (oldChecksum = art_Checksum newArtifact))
        then log (EEvent EventTypeNormal "NewArtifact") st
        else if FailureRecovery lib oldObj newObj helmRepositoryFailConditions
        then log (EEvent EventTypeNormal SucceededReason) st
        else st
      else st
  | None => st
  end.

(** The zero value of sreconcile.Result, with which reconcile declares its
    running result. *)
Definition Result_zero : Result := ResultEmpty.

(** The loop of reconcile over the sub-reconcilers. [inl] is the return from
    inside the loop (ResultRequeue); [inr] carries the running result and
    the error with which the loop ends, by exhaustion or by break. *)
Fixpoint reconcile_loop (reconcilers : list helmRepositoryReconcileFunc)
    (res : Result) (st : St) : (Ret * St) + (Ret * St) :=
  match reconcilers with
  | [] => inr ((res, None), st)
  | rec :: rest =>
      let '((recResult, err), st1) := rec st in
      (* Exit immediately on ResultRequeue. *)
      if bool_decide (recResult = ResultRequeue)
      then inl ((ResultRequeue, None), st1)
      else
        match err with
        | Some e =>
            (* An error also means immediate requeue: keep the result, break. *)
            inr ((recResult, Some e), st1)
        | None =>
            (* Prioritize requeue request in the result for successful results. *)
            reconcile_loop rest (LowestRequeuingResult lib res recResult) st1
        end
  end.

(** reconcile, before the sub-reconcilers run: mark the object as being
    reconciled and persist that if the generation differs or a
    reconciliation is requested. *)
Definition reconcile_persist (st : St) : option error * St :=
  let st1 :=
    upd_obj (progressiveStatus false ProgressingReason "reconciliation in progress") st in
  let reconcileAtVal :=
    default "" (meta_Annotations (obj st1) !! ReconcileRequestAnnotation) in
  (* Persist reconciling if generation differs or reconciliation is requested. *)
  if negb (bool_decide (meta_Generation (obj st1)
                        = status_ObservedGeneration (hr_Status (obj st1))))
  then
    patch (upd_obj (progressiveStatus false ProgressingReason
                      ("processing object: new generation "
                       ++ pretty (status_ObservedGeneration (hr_Status (obj st1)))
                       ++ " -> " ++ pretty (meta_Generation (obj st1)))) st1)
  else if negb (bool_decide (reconcileAtVal
                             = status_LastHandledReconcileAt (hr_Status (obj st1))))
  then patch st1
  else (None, st1).

(** reconcile. *)
Definition reconcile (reconcilers : list helmRepositoryReconcileFunc) (st : St)
    : Ret * St :=
  let oldObj := obj st in
  match reconcile_persist st with
  | (Some err, st2) => ((ResultEmpty, Some err), st2)
  | (None, st2) =>
      let st3 := set_artifact Artifact_zero (set_chartRepo ChartRepository_zero st2) in
      (* Run the sub-reconcilers and build the result of reconciliation. *)
      match reconcile_loop reconcilers Result_zero st3 with
      | inl out => out
      | inr ((res, resErr), st4) => ((res, resErr), notify oldObj res resErr st4)
      end
  end.

(** Reconcile, from the finalizer check to its return: the body that decides
    recResult and retErr. The fetch of the object before it (r.Get) and the
    deferred function after it (summarize.SummarizeAndPatch, which summarises
    the conditions, records the handled request and patches the object, and
    the metrics) belong to packages that are not part of the sources and are
    outside this definition: [st] holds the object as the body finds it, and
    the state returned holds the object, the slots and the calls as the body
    hands them to the deferred function. What is stated of Reconcile below is
    stated of this body. *)
Definition Reconcile (st : St) : Ret * St :=
  (* Add finalizer first if not exist *)
  if negb (ContainsFinalizer (obj st) SourceFinalizer) then
    ((ResultRequeue, None), upd_obj (λ o, AddFinalizer o SourceFinalizer) st)
  (* Examine if the object is under deletion or if a type change has happened *)
  else if negb (DeletionTimestamp_IsZero (obj st))
          || (negb (bool_decide (spec_Type (hr_Spec (obj st)) = ""))
              && negb (bool_decide (spec_Type (hr_Spec (obj st)) = HelmRepositoryTypeDefault)))
  then reconcileDelete st
  (* Return if the object is suspended. *)
  else if spec_Suspend (hr_Spec (obj st)) then ((ResultEmpty, None), st)
  (* Reconcile actual object *)
  else reconcile [reconcileStorage; reconcileSource; reconcileArtifact] st.

End Reconciler.

(** ** The migration condition in the words of the specification *)

(** The status is empty: every field has its zero value. *)
Definition StatusEmpty_spec (hr : HelmRepository) : Prop :=
  status_ObservedGeneration (hr_Status hr) = 0 ∧
  status_Conditions (hr_Status hr) = None ∧
  status_URL (hr_Status hr) = "" ∧
  status_Artifact (hr_Status hr) = None ∧
  status_LastHandledReconcileAt (hr_Status hr) = "".

(** The object has the alternate (OCI) type and carries the tracking
    finalizer or a non-empty status. *)
Definition RequireMigration_spec (hr : HelmRepository) : Prop :=
  spec_Type (hr_Spec hr) = HelmRepositoryTypeOCI ∧
  (SourceFinalizer ∈ meta_Finalizers hr ∨ ¬ StatusEmpty_spec hr).


(** ** Running sub-reconcilers one after the other *)

Section Pipeline.
Context {W : Type}.

(** The outcomes of the given sub-reconcilers when each runs on the state the
    previous one left, and the state after the last. *)
Fixpoint run_stages (reconcilers : list (PassState W -> Ret * PassState W))
    (st : PassState W) : list Ret * PassState W :=
  match reconcilers with
  | [] => ([], st)
  | rec :: rest =>
      let '(out, st1) := rec st in
      let '(outs, st2) := run_stages rest st1 in
      (out :: outs, st2)
  end.

(** A sub-reconciler outcome after which the loop goes on: not a requeue,
    and no error. *)
Definition proceeds (out : Ret) : Prop :=
  out.1 ≠ ResultRequeue ∧ out.2 = None.

(** The checksum of the old object's artifact as notify takes it: empty when
    the old object has no artifact. *)
Definition oldChecksum_of (oldObj : HelmRepository) : string :=
  match GetArtifact oldObj with
  | Some a => art_Checksum a
  | None => ""
  end.

End Pipeline.

(** ** A scripted reconciler

    A concrete library and a reconciler whose collaborators answer from a
    script; the world counts the calls that act on it. *)

Definition ex_LowestRequeuingResult (i j : Result) : Result :=
  match i, j with
  | ResultEmpty, _ => j
  | _, ResultEmpty => i
  | ResultRequeue, _ => i
  | _, ResultRequeue => j
  | _, _ => j
  end.

Definition ex_FailureRecovery (oldObj newObj : HelmRepository)
    (failConditions : list string) : bool :=
  forallb (λ c, bool_decide (conditions_Get newObj c = None)) failConditions
  && existsb (λ c, negb (bool_decide (conditions_Get oldObj c = None))) failConditions.

(** fmt.Sprintf without operands on the texts of the fixture, which hold no
    flag, width, precision or argument index: a doubled percent sign is one
    percent sign, a verb lacks its operand, a percent sign at the end lacks
    its verb. *)
Fixpoint ex_Sprintf (format : string) : string :=
  match format with
  | EmptyString => ""
  | String "%"%char rest =>
      match rest with
      | EmptyString => "%!(NOVERB)"
      | String "%"%char rest' => String "%"%char (ex_Sprintf rest')
      | String verb rest' => "%!" ++ String verb ("(MISSING)" ++ ex_Sprintf rest')
      end
  | String c rest => String c (ex_Sprintf rest)
  end.

Definition ex_lib : Library := {|
  fmt_Sprintf := ex_Sprintf;
  digest_Validate d := String.prefix "sha256:" d;
  digest_Algorithm d := if String.prefix "sha256:" d then "sha256" else "";
  digest_Hex d := String.substring 7 (String.length d - 7) d;
  Canonical := "sha256";
  TransformLegacyRevision rev := rev;
  ChartRepository_Digest cr algo := algo ++ ":" ++ default "" (cr_Index cr);
  LowestRequeuingResult := ex_LowestRequeuingResult;
  FailureRecovery := ex_FailureRecovery;
  ProgressiveStatus drift cs reason message :=
    if drift
    then Some (set_condition (mkCondition ReconcilingCondition "True" reason message)
                 (default [] cs))
    else cs;
  ClientOptionsFromSecret _ := inr [];
  TLSClientConfigFromSecret _ _ := inr None
|}.

Record Script := mkScript {
  sc_patch : option error;
  sc_index : string;
  sc_cacheIndex : option error;
  sc_load : option error;
  sc_exist : bool;
  sc_removeAll : string * option error;
  sc_gc : list string * option error;
  sc_mkdir : option error;
  sc_lock : option error;
  sc_copy : option error;
  sc_symlink : error + string;
  sc_cache : bool
}.

Definition ex_reconciler (s : Script) : HelmRepositoryReconciler nat := {|
  Client_Patch w _ := (sc_patch s, S w);
  Client_GetSecret w _ _ := (inr ∅, w);
  NewChartRepository w url _ _ := (inr (mkChartRepository url "" None), w);
  CacheIndex w cr :=
    (sc_cacheIndex s, mkChartRepository (cr_URL cr) "/tmp/index.yaml" (Some (sc_index s)), S w);
  LoadFromPath w cr := (sc_load s, cr, w);
  Clear w cr := (None, mkChartRepository (cr_URL cr) "" None, S w);
  Storage_ArtifactExist _ _ := sc_exist s;
  Storage_SetArtifactURL _ a :=
    mkArtifact (art_Path a) ("http://storage/" ++ art_Path a) (art_Revision a)
      (art_Checksum a) (art_Digest a) (art_LastUpdateTime a) (art_Size a);
  Storage_SetHostname _ url := url;
  Storage_NewArtifactFor _ kind ns name revision fileName :=
    mkArtifact (kind ++ "/" ++ ns ++ "/" ++ name ++ "/" ++ fileName) "" revision "" "" 0 None;
  Storage_RemoveAll w _ := (sc_removeAll s, S w);
  Storage_GarbageCollect w _ := (sc_gc s, S w);
  Storage_MkdirAll w _ := (sc_mkdir s, S w);
  Storage_Lock w _ := (sc_lock s, S w);
  Storage_Unlock w _ := S w;
  Storage_CopyFromPath w a _ :=
    (sc_copy s,
     match sc_copy s with
     | None => mkArtifact (art_Path a) (art_URL a) (art_Revision a) (art_Revision a)
                 (art_Revision a) 1 (Some 42)
     | Some _ => a
     end, S w);
  Storage_Symlink w _ _ := (sc_symlink s, S w);
  Cache := sc_cache s;
  TTL := 900;
  Cache_SetExpiration w _ _ := S w;
  Cache_Set w _ _ _ := (None, S w)
|}.

(** A script in which every collaborator succeeds. *)
Definition ex_ok : Script :=
  mkScript None "A" None None true ("", None) ([], None) None None None
    (inr "http://storage/index.yaml") true.

Definition ex_spec (type : string) (suspend : bool) : HelmRepositorySpec :=
  mkSpec "https://charts.example.com" None false 60 suspend type.

Definition ex_status_zero : HelmRepositoryStatus := mkStatus 0 None "" None "".

(** An artifact stored for the index with content "A". *)
Definition ex_artifact : Artifact :=
  mkArtifact "HelmRepository/default/repo/index-A.yaml" "http://storage/old"
    "sha256:A" "sha256:A" "sha256:A" 1 (Some 42).

Definition ex_status_stored : HelmRepositoryStatus :=
  mkStatus 1 (Some [mkCondition ReadyCondition "True" SucceededReason "stored"])
    "http://storage/index.yaml" (Some ex_artifact) "".

Definition ex_repo (deleted : option Z) (finalizers : list string)
    (spec : HelmRepositorySpec) (status : HelmRepositoryStatus) : HelmRepository :=
  mkHelmRepository "HelmRepository" "repo" "default" 1 deleted finalizers ∅ spec status.

Definition ex_state (o : HelmRepository) : PassState nat :=
  mkPassState o Artifact_zero ChartRepository_zero 0%nat [].

(** A stored, suspended repository of the default type with the finalizer. *)
Definition ex_suspended : HelmRepository :=
  ex_repo None [SourceFinalizer] (ex_spec HelmRepositoryTypeDefault true) ex_status_stored.

(** A fresh repository of the default type: finalizer set, nothing stored. *)
Definition ex_fresh : HelmRepository :=
  ex_repo None [SourceFinalizer] (ex_spec HelmRepositoryTypeDefault false) ex_status_zero.

(** A sub-reconciler that asks for a requeue, and one that tampers with the
    object: used to see which sub-reconcilers ran. *)
Definition ex_requeue_stage : PassState nat -> Ret * PassState nat :=
  λ st, ((ResultRequeue, None), log EUnlock st).

Definition ex_tamper_stage : PassState nat -> Ret * PassState nat :=
  λ st, ((ResultSuccess, None), upd_obj (set_Finalizers []) (log (EEvent "x" "y") st)).

(** Scripts with one failing storage step. *)
Definition ex_copy_fails : Script :=
  mkScript None "A" None None true ("", None) ([], None) None None
    (Some (Err "no space left on device")) (inr "http://storage/index.yaml") true.


(** The state in which reconcileArtifact finds a stored repository when the
    remote index changed to content "B". *)
Definition ex_candidate : PassState nat :=
  mkPassState
    (ex_repo None [SourceFinalizer] (ex_spec HelmRepositoryTypeDefault false)
       ex_status_stored)
    (mkArtifact "HelmRepository/default/repo/index-B.yaml" "" "sha256:B" "" "" 0 None)
    (mkChartRepository "https://charts.example.com" "/tmp/index.yaml" (Some "B"))
    0%nat [].

(** A script in which every removal from storage fails. *)
Definition ex_gc_fails : Script :=
  mkScript None "A" None None true ("", Some (Err "device busy"))
    ([], Some (Err "device busy")) None None None (inr "http://storage/index.yaml") true.

(** A stored repository marked for deletion, with the finalizer. *)
Definition ex_deleted : HelmRepository :=
  ex_repo (Some 1700000000) [SourceFinalizer] (ex_spec HelmRepositoryTypeDefault false)
    ex_status_stored.

(** A stored repository of the default type: finalizer set, index "A" stored. *)
Definition ex_stored : HelmRepository :=
  ex_repo None [SourceFinalizer] (ex_spec HelmRepositoryTypeDefault false) ex_status_stored.

(** ** Steady state

    An object is in steady state when it is not marked for deletion and its
    type is unset or the default one: the state in which neither the
    orchestrator nor the garbage collection purges. *)

Definition steady (o : HelmRepository) : Prop :=
  DeletionTimestamp_IsZero o = true
  ∧ (spec_Type (hr_Spec o) = "" ∨ spec_Type (hr_Spec o) = HelmRepositoryTypeDefault).

(** The effect of a full purge of the object's artifacts. *)
Definition is_purge (e : Effect) : bool :=
  match e with
  | ERemoveAll _ => true
  | _ => false
  end.

(** [st'] follows [st] without a purge: the object is still in steady state
    and the trace grew by effects that are not purges. *)
Definition quiet {W : Type} (st st' : PassState W) : Prop :=
  steady (obj st')
  ∧ ∃ l, trace st' = (trace st ++ l)%list ∧ Forall (λ e, is_purge e = false) l.

(** A stored repository with the finalizer whose type is not set. *)
Definition ex_unset : HelmRepository :=
  ex_repo None [SourceFinalizer] (ex_spec "" false) ex_status_stored.

(** Effects of the fetch of the remote index. *)
Definition is_fetch (e : Effect) : bool :=
  match e with
  | EGetSecret _ | ENewChartRepository _ | ECacheIndex _ => true
  | _ => false
  end.

(** Effects that validate the downloaded index or persist progress. *)
Definition is_validation (e : Effect) : bool :=
  match e with
  | ELoadFromPath _ | EPatch _ => true
  | _ => false
  end.



(** ** Frames and effect classes *)

(** [o'] is [o] with another status: kind, metadata and spec are those of
    [o]. *)
Definition status_only (o o' : HelmRepository) : Prop :=
  o' = set_Status (λ _, hr_Status o') o.

(** [o'] is [o] with other conditions: nothing else of the status differs. *)
Definition conditions_only (o o' : HelmRepository) : Prop :=
  o' = set_Status (with_Conditions (status_Conditions (hr_Status o'))) o.

(** A sub-reconciler outcome is a success without error or the empty result
    with an error. *)
Definition success_or_error (out : Ret) : Prop :=
  out = (ResultSuccess, None) ∨ ∃ e, out = (ResultEmpty, Some e).

(** Acquisitions and releases of the artifact lock. *)
Definition is_lock_acquired (e : Effect) : bool :=
  match e with
  | ELock None => true
  | _ => false
  end.

Definition is_unlock (e : Effect) : bool :=
  match e with
  | EUnlock => true
  | _ => false
  end.

(** Effects of the purge of a deleted object: the removal and its event. *)
Definition is_purge_effect (e : Effect) : bool :=
  match e with
  | ERemoveAll _ | EEvent _ _ => true
  | _ => false
  end.

(** Scripts with a failing patch, a failing directory creation, a failing
    lock, a failing download and a failing index validation. *)
Definition ex_patch_fails : Script :=
  mkScript (Some (Err "conflict")) "A" None None true ("", None) ([], None) None None None
    (inr "http://storage/index.yaml") true.

Definition ex_mkdir_fails : Script :=
  mkScript None "A" None None true ("", None) ([], None) (Some (Err "read-only"))
    None None (inr "http://storage/index.yaml") true.

Definition ex_lock_fails : Script :=
  mkScript None "A" None None true ("", None) ([], None) None (Some (Err "locked"))
    None (inr "http://storage/index.yaml") true.

Definition ex_download_fails : Script :=
  mkScript None "A" (Some (Err "connection refused")) None true ("", None) ([], None)
    None None None (inr "http://storage/index.yaml") true.

Definition ex_missing : Script :=
  mkScript None "A" None None false ("", None) ([], None) None None None
    (inr "http://storage/index.yaml") true.

(** The Reason field of the controller's own errors. *)
Definition error_reason (e : error) : string :=
  match e with
  | Event reason _ _ => reason
  | Stalling reason _ _ => reason
  | _ => ""
  end.

(** The error is an serror.Stalling. *)
Definition is_stalling (e : error) : bool :=
  match e with
  | Stalling _ _ _ => true
  | _ => false
  end.

(** The removal of the temporary index file. *)
Definition is_clear (e : Effect) : bool :=
  match e with
  | EClear _ => true
  | _ => false
  end.

(** Calls to the index cache. *)
Definition is_cache_call (e : Effect) : bool :=
  match e with
  | ECacheSet _ _ | ECacheSetExpiration _ => true
  | _ => false
  end.

(** The trace of [st'] continues the trace of [st]. *)
Definition extends {W : Type} (st st' : PassState W) : Prop :=
  ∃ l, trace st' = (trace st ++ l)%list.

(** * Properties *)

(** ** Event predicates *)

Lemma hasEmptyHelmRepositoryStatus_spec hr :
  hasEmptyHelmRepositoryStatus hr = true ↔ StatusEmpty_spec hr.
Proof.
  unfold hasEmptyHelmRepositoryStatus, StatusEmpty_spec.
  rewrite !andb_true_iff, !bool_decide_eq_true.
  destruct (status_Artifact (hr_Status hr)); intuition congruence.
Qed.

Lemma HelmRepositoryOCIRequireMigration_spec hr :
  HelmRepositoryOCIRequireMigration (HelmRepositoryObject hr) = true
  ↔ RequireMigration_spec hr.
Proof.
  unfold HelmRepositoryOCIRequireMigration, RequireMigration_spec, ContainsFinalizer.
  pose proof (hasEmptyHelmRepositoryStatus_spec hr) as He.
  case_bool_decide as Ht; simpl; [|intuition congruence].
  case_bool_decide as Hf; simpl; [intuition|].
  destruct (hasEmptyHelmRepositoryStatus hr); simpl; split; try done.
  - intros [_ [?|Hn]]; [done|]. exfalso. apply Hn. by apply He.
  - intros _. split; [done|]. right. intros Hs. by apply He in Hs.
Qed.

(** C5. On a HelmRepository, the Create, Update and Delete methods of the
    migration predicate return true exactly when the object (for Update: the
    new object, whatever the old one is) has the OCI type and carries the
    tracking finalizer or a non-empty status; the status is empty only when
    the observed generation is zero, the condition slice is nil, the URL is
    empty, the artifact is nil and the last handled reconcile token is empty,
    so any one field with a non-zero value makes the predicate fire on an OCI
    object. A nil object or an object of another kind never passes. *)
Theorem migration_predicate_fires_iff :
  ∀ (p : HelmRepositoryOCIMigrationPredicate) (hr : HelmRepository)
    (old : client_Object) (unknown : bool),
    (Create p (mkCreateEvent (HelmRepositoryObject hr)) = true
       ↔ RequireMigration_spec hr) ∧
    (Update p (mkUpdateEvent old (HelmRepositoryObject hr)) = true
       ↔ RequireMigration_spec hr) ∧
    (Delete p (mkDeleteEvent (HelmRepositoryObject hr) unknown) = true
       ↔ RequireMigration_spec hr) ∧
    (hasEmptyHelmRepositoryStatus hr = true ↔ StatusEmpty_spec hr) ∧
    (spec_Type (hr_Spec hr) = HelmRepositoryTypeOCI →
     (status_ObservedGeneration (hr_Status hr) ≠ 0
      ∨ status_Conditions (hr_Status hr) ≠ None
      ∨ status_URL (hr_Status hr) ≠ ""
      ∨ status_Artifact (hr_Status hr) ≠ None
      ∨ status_LastHandledReconcileAt (hr_Status hr) ≠ "") →
     HelmRepositoryOCIRequireMigration (HelmRepositoryObject hr) = true) ∧
    (∀ k, Create p (mkCreateEvent NilObject) = false
          ∧ Create p (mkCreateEvent (OtherObject k)) = false
          ∧ Update p (mkUpdateEvent old NilObject) = false
          ∧ Update p (mkUpdateEvent old (OtherObject k)) = false
          ∧ Delete p (mkDeleteEvent NilObject unknown) = false
          ∧ Delete p (mkDeleteEvent (OtherObject k) unknown) = false).
Proof.
  intros p hr old unknown.
  pose proof (HelmRepositoryOCIRequireMigration_spec hr) as Hm.
  repeat split; try (by apply Hm); try (by apply hasEmptyHelmRepositoryStatus_spec).
  intros Ht Hnz. apply Hm. split; [done|]. right.
  unfold StatusEmpty_spec. intuition congruence.
Qed.

(** C10. The migration predicate has no Generic method of its own: the call
    is the one of the embedded predicate.Funcs, which, with no GenericFunc
    set, lets every event pass, whatever the object's type, finalizers and
    status, and also for a nil object; the three other kinds reject an
    object that does not need migration. *)
Theorem migration_predicate_generic_passes :
  (∀ (p : HelmRepositoryOCIMigrationPredicate) (e : GenericEvent),
     Generic p e = Generic (mp_Funcs p) e) ∧
  (∀ (c : option (CreateEvent -> bool)) (d : option (DeleteEvent -> bool))
     (u : option (UpdateEvent -> bool)) (e : GenericEvent),
     Generic (mkMigrationPredicate (mkFuncs c d u None)) e = true) ∧
  (∀ (e : GenericEvent), Generic (mkMigrationPredicate Funcs_zero) e = true) ∧
  (∀ (hr : HelmRepository) (old : client_Object) (unknown : bool),
     ¬ RequireMigration_spec hr →
     let p := mkMigrationPredicate Funcs_zero in
     Create p (mkCreateEvent (HelmRepositoryObject hr)) = false
     ∧ Update p (mkUpdateEvent old (HelmRepositoryObject hr)) = false
     ∧ Delete p (mkDeleteEvent (HelmRepositoryObject hr) unknown) = false
     ∧ Generic p (mkGenericEvent (HelmRepositoryObject hr)) = true).
Proof.
  repeat split; try done.
  all: simpl; apply not_true_is_false; intros Ht;
    by apply HelmRepositoryOCIRequireMigration_spec in Ht.
Qed.

(** ** Traces *)

Section Traces.
Context {W : Type}.
Implicit Types st : PassState W.

Lemma new_effects_refl st : new_effects st st = [].
Proof. unfold new_effects. by rewrite drop_all. Qed.

Lemma new_effects_app st st' l :
  trace st' = (trace st ++ l)%list → new_effects st st' = l.
Proof. unfold new_effects. intros ->. by rewrite drop_app_length. Qed.

Lemma new_effects_log st e : new_effects st (log e st) = [e].
Proof. by apply new_effects_app. Qed.

End Traces.

(** Case analysis on every collaborator outcome and branch met in the goal. *)
Ltac explode_step :=
  match goal with
  | |- context [match ?x with _ => _ end] =>
      lazymatch x with
      | context [match _ with _ => _ end] => fail
      | _ => destruct x eqn:?
      end
  end.

Ltac explode := repeat (explode_step; simplify_eq; simpl).

(** Compute the effects added to a trace built by successive [log]s. *)
Ltac trace_simpl :=
  unfold new_effects in *;
  cbn [trace log set_world upd_obj set_artifact set_chartRepo] in *;
  rewrite <- ?app_assoc in *; rewrite ?drop_app_length, ?drop_all in *;
  cbn [app] in *.

(** ** Suspension *)

Section StagesLeaveTrace.
Context {W : Type} (lib : Library) (r : HelmRepositoryReconciler W).
Implicit Types st : PassState W.

Lemma reconcileStorage_logs st :
  new_effects st (reconcileStorage lib r st).2 ≠ [].
Proof.
  unfold reconcileStorage, garbageCollect, patch, eventLogf.
  explode; trace_simpl; try done.
Qed.

Lemma reconcileSource_logs st :
  new_effects st (reconcileSource lib r st).2 ≠ [].
Proof.
  unfold reconcileSource, reconcileSource_fetch, fetchFailed, patch.
  explode; trace_simpl; try done.
Qed.

Lemma reconcileArtifact_logs st :
  new_effects st (reconcileArtifact lib r st).2 ≠ [].
Proof.
  unfold reconcileArtifact, reconcileArtifact_deferred, reconcileArtifact_body,
    reconcileArtifact_locked, Symlink_result, eventLogf.
  explode; trace_simpl; try done.
Qed.

End StagesLeaveTrace.

(** C6, as the code has it. For an object that carries the tracking
    finalizer, is not marked for deletion, has the default (or no) type and is
    suspended, the pass body returns the empty result (no requeue is asked
    for) with no error and leaves the whole pass state as it was: the object
    with its status, the shared slots, the world and the trace, so that no
    collaborator was called. Each of the three sub-reconcilers calls at least
    one collaborator whenever it runs, hence none of them ran. *)
Theorem suspended_pass_is_empty_noop :
  ∀ (W : Type) (lib : Library) (r : HelmRepositoryReconciler W) (st : PassState W),
    ContainsFinalizer (obj st) SourceFinalizer = true →
    DeletionTimestamp_IsZero (obj st) = true →
    (spec_Type (hr_Spec (obj st)) = ""
     ∨ spec_Type (hr_Spec (obj st)) = HelmRepositoryTypeDefault) →
    spec_Suspend (hr_Spec (obj st)) = true →
    Reconcile lib r st = ((ResultEmpty, None), st)
    ∧ new_effects st (Reconcile lib r st).2 = []
    ∧ (∀ st0 : PassState W,
         new_effects st0 (reconcileStorage lib r st0).2 ≠ []
         ∧ new_effects st0 (reconcileSource lib r st0).2 ≠ []
         ∧ new_effects st0 (reconcileArtifact lib r st0).2 ≠ []).
Proof.
  intros W lib r st Hfin Hdel Htype Hsusp.
  assert (Reconcile lib r st = ((ResultEmpty, None), st)) as HR.
  { unfold Reconcile. rewrite Hfin, Hdel, Hsusp. simpl.
    destruct Htype as [-> | ->]; reflexivity. }
  split; [done|]. split.
  - rewrite HR. apply new_effects_refl.
  - intros st0. auto using reconcileStorage_logs, reconcileSource_logs,
      reconcileArtifact_logs.
Qed.

Lemma suspended_pass_is_empty_noop_witness :
  Reconcile ex_lib (ex_reconciler ex_ok) (ex_state ex_suspended)
  = ((ResultEmpty, None), ex_state ex_suspended).
Proof.
  apply (suspended_pass_is_empty_noop nat ex_lib (ex_reconciler ex_ok)
           (ex_state ex_suspended)).
  - reflexivity.
  - reflexivity.
  - right. reflexivity.
  - reflexivity.
Defined.

(** C6 as stated fails: the suspended object below carries the finalizer, is
    not marked for deletion and has the default type, and the pass does not
    return ResultSuccess. *)
Lemma suspended_pass_not_success :
  ContainsFinalizer ex_suspended SourceFinalizer = true
  ∧ DeletionTimestamp_IsZero ex_suspended = true
  ∧ spec_Type (hr_Spec ex_suspended) = HelmRepositoryTypeDefault
  ∧ spec_Suspend (hr_Spec ex_suspended) = true
  ∧ (Reconcile ex_lib (ex_reconciler ex_ok) (ex_state ex_suspended)).1
    ≠ (ResultSuccess, None).
Proof. repeat split. vm_compute. discriminate. Qed.

(** ** The pipeline loop *)

Section Loop.
Context {W : Type} (lib : Library) (r : HelmRepositoryReconciler W).
Implicit Types st : PassState W.
Implicit Types reconcilers pre post : list (PassState W -> Ret * PassState W).

Lemma reconcile_loop_proceeds pre : ∀ post res st outs st1,
  run_stages pre st = (outs, st1) →
  Forall proceeds outs →
  reconcile_loop lib (pre ++ post) res st
  = reconcile_loop lib post
      (fold_left (LowestRequeuingResult lib) (map fst outs) res) st1.
Proof.
  induction pre as [|rec pre IH]; intros post res st outs st1 Hrun Hok.
  - simpl in Hrun. by simplify_eq.
  - simpl in Hrun. destruct (rec st) as [out st'] eqn:Hrec.
    destruct (run_stages pre st') as [outs' st''] eqn:Hrest. simplify_eq.
    apply Forall_cons in Hok as [[Hnr Hne] Hok].
    destruct out as [recResult err]. simpl in *. subst err.
    rewrite Hrec. rewrite bool_decide_eq_false_2 by done.
    rewrite (IH _ _ _ _ _ Hrest Hok). reflexivity.
Qed.

Lemma reconcile_loop_requeue rec post res st st1 err :
  rec st = ((ResultRequeue, err), st1) →
  reconcile_loop lib (rec :: post) res st = inl ((ResultRequeue, None), st1).
Proof. intros Hrec. simpl. by rewrite Hrec. Qed.

Lemma reconcile_loop_error rec post res st st1 recResult e :
  rec st = ((recResult, Some e), st1) →
  recResult ≠ ResultRequeue →
  reconcile_loop lib (rec :: post) res st = inr ((recResult, Some e), st1).
Proof. intros Hrec Hnr. simpl. rewrite Hrec. by rewrite bool_decide_eq_false_2. Qed.

Lemma notify_error oldObj res e st : notify lib oldObj res (Some e) st = st.
Proof. unfold notify. by destruct (status_Artifact _). Qed.

(** C3. In a pass whose initial persist step did not fail, let the
    sub-reconcilers [pre] run one after the other from the state with fresh
    slots, each ending without requeue and without error, and let the next
    one, [rec], run from the state they leave. If [rec] returns ResultRequeue
    the pass returns (ResultRequeue, no error) in the very state [rec] left;
    if [rec] returns an error with another result the pass returns that
    result and that error, again in the state [rec] left; in both cases the
    sub-reconcilers [post] that follow have no influence, whatever they are.
    If [rec] ends without requeue and without error and is the last one, the
    pass returns no error and the fold of all results, from the zero result,
    under LowestRequeuingResult. *)
Theorem pipeline_loop_outcomes :
  ∀ pre rec post st st0 outs st1 out st2,
    reconcile_persist lib r st = (None, st0) →
    run_stages pre (set_artifact Artifact_zero (set_chartRepo ChartRepository_zero st0))
      = (outs, st1) →
    Forall proceeds outs →
    rec st1 = (out, st2) →
    (out.1 = ResultRequeue →
       reconcile lib r (pre ++ rec :: post) st = ((ResultRequeue, None), st2))
    ∧ (∀ e, out.1 ≠ ResultRequeue → out.2 = Some e →
         reconcile lib r (pre ++ rec :: post) st = ((out.1, Some e), st2))
    ∧ (proceeds out →
         (reconcile lib r (pre ++ [rec]) st).1
         = (fold_left (LowestRequeuingResult lib) (map fst (outs ++ [out])) Result_zero,
            None)).
Proof.
  intros pre rec post st st0 outs st1 [recResult err] st2 Hp Hrun Hok Hrec.
  unfold reconcile. rewrite Hp. simpl.
  rewrite !(reconcile_loop_proceeds pre _ _ _ _ _ Hrun Hok).
  split; [|split].
  - intros ->. by rewrite (reconcile_loop_requeue _ _ _ _ _ _ Hrec).
  - intros e Hnr ->. rewrite (reconcile_loop_error _ _ _ _ _ _ _ Hrec Hnr).
    by rewrite notify_error.
  - intros [Hnr Hne]. simpl in *. subst err.
    simpl. rewrite Hrec. rewrite bool_decide_eq_false_2 by done. simpl.
    rewrite map_app, fold_left_app. reflexivity.
Qed.

End Loop.

Lemma pipeline_loop_outcomes_witness :
  reconcile ex_lib (ex_reconciler ex_ok)
    ([reconcileStorage ex_lib (ex_reconciler ex_ok)]
       ++ ex_requeue_stage :: [ex_tamper_stage]) (ex_state ex_fresh)
  = ((ResultRequeue, None),
     (ex_requeue_stage
        (reconcileStorage ex_lib (ex_reconciler ex_ok)
           (reconcile_persist ex_lib (ex_reconciler ex_ok) (ex_state ex_fresh)).2).2).2).
Proof.
  refine (proj1 (pipeline_loop_outcomes ex_lib (ex_reconciler ex_ok)
            [reconcileStorage ex_lib (ex_reconciler ex_ok)] ex_requeue_stage
            [ex_tamper_stage] (ex_state ex_fresh) _ _ _ _ _ eq_refl eq_refl _ eq_refl)
            eq_refl).
  repeat constructor; discriminate.
Defined.

(** ** Notifications *)

Section Notify.
Context {W : Type} (lib : Library) (r : HelmRepositoryReconciler W).
Implicit Types st : PassState W.

(** C7. What notify emits after the sub-reconcilers. It records the
    NewArtifact event exactly when there is no error, the result is
    ResultSuccess, the object has an artifact and its checksum differs from
    the old object's (empty if that had no artifact); it records the
    Succeeded event exactly when there is no error, the result is
    ResultSuccess, the object has an artifact with the old checksum and
    FailureRecovery holds between the old and the new object for the fail
    conditions FetchFailed and StorageOperationFailed; it records at most
    one event and changes nothing but the trace; with an error, another
    result or no artifact it does nothing at all. reconcile calls it once,
    when its loop has ended, with the object as it was on entry and the
    result and error of the loop, and not at all when a sub-reconciler asked
    for a requeue. *)
Theorem notify_emits :
  ∀ (oldObj : HelmRepository) (res : Result) (resErr : option error) st,
    (new_effects st (notify lib oldObj res resErr st)
       = [EEvent EventTypeNormal "NewArtifact"]
     ↔ resErr = None ∧ res = ResultSuccess
       ∧ ∃ a, status_Artifact (hr_Status (obj st)) = Some a
              ∧ oldChecksum_of oldObj ≠ art_Checksum a)
    ∧ (new_effects st (notify lib oldObj res resErr st)
         = [EEvent EventTypeNormal SucceededReason]
       ↔ resErr = None ∧ res = ResultSuccess
         ∧ ∃ a, status_Artifact (hr_Status (obj st)) = Some a
                ∧ oldChecksum_of oldObj = art_Checksum a
                ∧ FailureRecovery lib oldObj (obj st) helmRepositoryFailConditions = true)
    ∧ (new_effects st (notify lib oldObj res resErr st) = []
       ∨ new_effects st (notify lib oldObj res resErr st)
         = [EEvent EventTypeNormal "NewArtifact"]
       ∨ new_effects st (notify lib oldObj res resErr st)
         = [EEvent EventTypeNormal SucceededReason])
    ∧ (resErr ≠ None ∨ res ≠ ResultSuccess ∨ status_Artifact (hr_Status (obj st)) = None →
       notify lib oldObj res resErr st = st)
    ∧ obj (notify lib oldObj res resErr st) = obj st
    ∧ world (notify lib oldObj res resErr st) = world st
    ∧ helmRepositoryFailConditions
      = [FetchFailedCondition; StorageOperationFailedCondition]
    ∧ (∀ reconcilers st0,
         reconcile_persist lib r st = (None, st0) →
         reconcile lib r reconcilers st
         = match reconcile_loop lib reconcilers Result_zero
                   (set_artifact Artifact_zero (set_chartRepo ChartRepository_zero st0))
           with
           | inl out => out
           | inr out => (out.1, notify lib (obj st) out.1.1 out.1.2 out.2)
           end).
Proof.
  intros oldObj res resErr st.
  assert (∀ reconcilers st0,
            reconcile_persist lib r st = (None, st0) →
            reconcile lib r reconcilers st
            = match reconcile_loop lib reconcilers Result_zero
                      (set_artifact Artifact_zero (set_chartRepo ChartRepository_zero st0))
              with
              | inl out => out
              | inr out => (out.1, notify lib (obj st) out.1.1 out.1.2 out.2)
              end) as Hcall.
  { intros reconcilers st0 Hp. unfold reconcile. rewrite Hp.
    by destruct (reconcile_loop _ _ _ _) as [?|[[??] ?]]. }
  revert Hcall. generalize (reconcile lib r). intros rc Hcall.
  unfold notify.
  fold (oldChecksum_of oldObj).
  destruct (status_Artifact (hr_Status (obj st))) as [a|] eqn:Ha;
    [destruct (decide (resErr = None)) as [He|He];
       [rewrite (bool_decide_eq_true_2 _ He);
        destruct (decide (res = ResultSuccess)) as [Hr|Hr];
          [rewrite (bool_decide_eq_true_2 _ Hr);
           destruct (decide (oldChecksum_of oldObj = art_Checksum a)) as [Hc|Hc];
             [rewrite (bool_decide_eq_true_2 _ Hc);
              destruct (FailureRecovery lib oldObj (obj st)
                          helmRepositoryFailConditions) eqn:Hf
             |rewrite (bool_decide_eq_false_2 _ Hc)]
          |rewrite (bool_decide_eq_false_2 _ Hr)]
       |rewrite (bool_decide_eq_false_2 _ He)]|];
    cbn [andb negb];
    rewrite ?new_effects_log, ?new_effects_refl;
    repeat split; intros;
    repeat match goal with
           | H : _ ∧ _ |- _ => destruct H
           | H : ∃ _, _ |- _ => destruct H
           | H : _ ∨ _ |- _ => destruct H
           end;
    simplify_eq; eauto 7.
Qed.

End Notify.

(** ** The artifact stage *)

(** Decompose membership in an explicit trace. *)
Ltac elem_inv :=
  repeat match goal with
         | H : _ ∈ [] |- _ => by apply elem_of_nil in H
         | H : _ ∈ _ :: _ |- _ => apply elem_of_cons in H as [H|H]; simplify_eq
         end.

(** Find an effect in an explicit trace. *)
Ltac elem_solve :=
  solve [repeat (apply elem_of_cons; first [left; reflexivity | right])].

Section ArtifactStage.
Context {W : Type} (lib : Library) (r : HelmRepositoryReconciler W).
Implicit Types st : PassState W.

(** C2. When, in reconcileArtifact, the creation of the directory, the
    acquisition of the lock or the copy into storage returns an error, the
    stage returns the empty result with an error that wraps it, and the
    Artifact of the object's status is the one it was before the stage.
    Whenever the stage leaves another Artifact in the status, the copy into
    storage returned no error before, the stage succeeded and that Artifact
    is the candidate as the copy completed it. *)
Theorem storage_failure_keeps_artifact :
  ∀ st,
    (∀ err,
       EMkdirAll (Some err) ∈ new_effects st (reconcileArtifact lib r st).2
       ∨ ELock (Some err) ∈ new_effects st (reconcileArtifact lib r st).2
       ∨ ECopyFromPath (Some err) ∈ new_effects st (reconcileArtifact lib r st).2 →
       (∃ reason context,
          (reconcileArtifact lib r st).1 = (ResultEmpty, Some (Event reason context err)))
       ∧ status_Artifact (hr_Status (obj (reconcileArtifact lib r st).2))
         = status_Artifact (hr_Status (obj st)))
    ∧ (status_Artifact (hr_Status (obj (reconcileArtifact lib r st).2))
         ≠ status_Artifact (hr_Status (obj st)) →
       ECopyFromPath None ∈ new_effects st (reconcileArtifact lib r st).2
       ∧ (reconcileArtifact lib r st).1 = (ResultSuccess, None)
       ∧ status_Artifact (hr_Status (obj (reconcileArtifact lib r st).2))
         = Some (artifact (reconcileArtifact lib r st).2)).
Proof.
  intros st.
  destruct (reconcileArtifact lib r st) as [ret st'] eqn:Hrun. cbn [fst snd].
  revert Hrun.
  unfold reconcileArtifact, reconcileArtifact_deferred, reconcileArtifact_body,
    reconcileArtifact_locked, Symlink_result, eventLogf.
  explode; intros Hrun; simplify_eq;
    (split; [intros err Hfail|intros Hchg]); trace_simpl;
    destruct_or?; elem_inv; try done; eauto.
  all: repeat split; try done; elem_solve.
Qed.


End ArtifactStage.

Lemma storage_failure_keeps_artifact_witness :
  ECopyFromPath (Some (Err "no space left on device"))
    ∈ new_effects ex_candidate
        (reconcileArtifact ex_lib (ex_reconciler ex_copy_fails) ex_candidate).2
  ∧ status_Artifact
      (hr_Status (obj (reconcileArtifact ex_lib (ex_reconciler ex_copy_fails)
                         ex_candidate).2))
    = Some ex_artifact.
Proof.
  assert (ECopyFromPath (Some (Err "no space left on device"))
            ∈ new_effects ex_candidate
                (reconcileArtifact ex_lib (ex_reconciler ex_copy_fails) ex_candidate).2)
    as Hfail by (vm_compute; elem_solve).
  split; [exact Hfail|].
  exact (proj2 (proj1 (storage_failure_keeps_artifact ex_lib
                         (ex_reconciler ex_copy_fails) ex_candidate)
                  _ (or_intror (or_intror Hfail)))).
Defined.


(** ** Garbage collection and deletion *)

Lemma purge_condition_true (o : HelmRepository) :
  negb (DeletionTimestamp_IsZero o)
  || (negb (bool_decide (spec_Type (hr_Spec o) = ""))
      && negb (bool_decide (spec_Type (hr_Spec o) = HelmRepositoryTypeDefault))) = true
  ↔ DeletionTimestamp_IsZero o = false
    ∨ (spec_Type (hr_Spec o) ≠ "" ∧ spec_Type (hr_Spec o) ≠ HelmRepositoryTypeDefault).
Proof.
  rewrite orb_true_iff, andb_true_iff, !negb_true_iff, !bool_decide_eq_false.
  reflexivity.
Qed.

Lemma RemoveFinalizer_removes (o : HelmRepository) (f : string) :
  f ∉ meta_Finalizers (RemoveFinalizer o f).
Proof.
  unfold RemoveFinalizer. simpl. rewrite list_elem_of_filter. by intros [? _].
Qed.

Lemma ContainsFinalizer_true (o : HelmRepository) (f : string) :
  ContainsFinalizer o f = true ↔ f ∈ meta_Finalizers o.
Proof. unfold ContainsFinalizer. apply bool_decide_eq_true. Qed.

Lemma purge_condition_false (o : HelmRepository) :
  steady o →
  negb (DeletionTimestamp_IsZero o)
  || (negb (bool_decide (spec_Type (hr_Spec o) = ""))
      && negb (bool_decide (spec_Type (hr_Spec o) = HelmRepositoryTypeDefault))) = false.
Proof.
  intros [Hz Ht]. apply not_true_is_false. rewrite purge_condition_true.
  intros [?|[? ?]]; [congruence|]. by destruct Ht.
Qed.

Section Deletion.
Context {W : Type} (lib : Library) (r : HelmRepositoryReconciler W).
Implicit Types st : PassState W.

(** C4. reconcileStorage begins with garbageCollect: the calls of the stage
    are those of garbageCollect on the entry state, followed by a probe of
    the artifact or a patch of the status, whatever garbageCollect returned.
    In steady state, with an artifact in the status, the first call of the
    stage is thus the retention collection of the storage for that artifact,
    with the outcome the storage gave, and a probe follows. A failed garbage
    collection is not returned: the
    stage goes on to probe the artifact or to persist the status, and it ends
    with ResultSuccess, or with the error of its own patch call. On the
    deletion path of a pass (finalizer present, object marked for deletion or
    of an unsupported type) a failed removal is returned as the error of the
    pass and the object, with its finalizer, is left as it was; the tracking
    finalizer is gone after the pass exactly when the removal succeeded and
    the deletion timestamp is set; and after a successful removal the pass
    returns no error and the status has no artifact, an empty URL and no
    conditions. *)
Theorem gc_errors_swallowed_or_blocking :
  ∀ st,
    ((∃ rest,
        new_effects st (reconcileStorage lib r st).2
        = (new_effects st (garbageCollect r st).2 ++ rest)%list
        ∧ ((∃ found, EArtifactExist found ∈ rest) ∨ (∃ e, EPatch e ∈ rest)))
     ∧ (∀ a, steady (obj st) → GetArtifact (obj st) = Some a →
             ∃ rest,
               new_effects st (reconcileStorage lib r st).2
               = EGarbageCollect (Storage_GarbageCollect r (world st) a).1.2 :: rest
               ∧ ∃ found, EArtifactExist found ∈ rest)
     ∧ (∀ err,
        ERemoveAll (Some err) ∈ new_effects st (reconcileStorage lib r st).2
        ∨ EGarbageCollect (Some err) ∈ new_effects st (reconcileStorage lib r st).2 →
        (∃ found, EArtifactExist found ∈ new_effects st (reconcileStorage lib r st).2)
        ∨ (∃ e, EPatch e ∈ new_effects st (reconcileStorage lib r st).2))
     ∧ ((reconcileStorage lib r st).1 = (ResultSuccess, None)
        ∨ ∃ e, (reconcileStorage lib r st).1 = (ResultEmpty, Some e)
               ∧ EPatch (Some e) ∈ new_effects st (reconcileStorage lib r st).2))
    ∧ (ContainsFinalizer (obj st) SourceFinalizer = true →
       DeletionTimestamp_IsZero (obj st) = false
       ∨ (spec_Type (hr_Spec (obj st)) ≠ ""
          ∧ spec_Type (hr_Spec (obj st)) ≠ HelmRepositoryTypeDefault) →
       (∀ err,
          ERemoveAll (Some err) ∈ new_effects st (Reconcile lib r st).2 →
          (Reconcile lib r st).1
            = (ResultEmpty,
               Some (Event "GarbageCollectionFailed"
                       "garbage collection for deleted resource failed" err))
          ∧ obj (Reconcile lib r st).2 = obj st
          ∧ SourceFinalizer ∈ meta_Finalizers (obj (Reconcile lib r st).2))
       ∧ (SourceFinalizer ∉ meta_Finalizers (obj (Reconcile lib r st).2)
          ↔ ERemoveAll None ∈ new_effects st (Reconcile lib r st).2
            ∧ DeletionTimestamp_IsZero (obj st) = false)
       ∧ (ERemoveAll None ∈ new_effects st (Reconcile lib r st).2 →
          (Reconcile lib r st).1 = (ResultEmpty, None)
          ∧ status_Artifact (hr_Status (obj (Reconcile lib r st).2)) = None
          ∧ status_URL (hr_Status (obj (Reconcile lib r st).2)) = ""
          ∧ status_Conditions (hr_Status (obj (Reconcile lib r st).2)) = None)).
Proof.
  intros st. split; [split; [|split; [|split]]|].
  - unfold reconcileStorage, garbageCollect, patch, eventLogf.
    explode; trace_simpl; eexists; (split; [reflexivity|]);
      first [left; eexists; elem_solve | right; eexists; elem_solve].
  - intros a Hs Ha. apply purge_condition_false in Hs.
    unfold reconcileStorage, garbageCollect, patch, eventLogf.
    rewrite Hs, Ha.
    explode; trace_simpl; eexists; (split; [reflexivity|]); eexists; elem_solve.
  - unfold reconcileStorage, garbageCollect, patch, eventLogf.
    explode; intros err Hfail; trace_simpl; destruct_or?; elem_inv;
      first [left; eexists; elem_solve | right; eexists; elem_solve].
  - unfold reconcileStorage, garbageCollect, patch, eventLogf.
    explode; trace_simpl; first [by left | right; eexists; split; [done|elem_solve]].
  - intros Hfin Hpurge.
    pose proof (proj1 (ContainsFinalizer_true _ _) Hfin) as Hin.
    apply purge_condition_true in Hpurge.
    unfold Reconcile, reconcileDelete, garbageCollect, eventLogf.
    rewrite Hfin, Hpurge. cbn [negb]. clear Hpurge.
    unfold DeletionTimestamp_IsZero in *.
    explode; trace_simpl;
      (split;
       [ intros err Herr; elem_inv; by repeat split
       | split;
         [ split; [intros Hnot | intros [Hrm Hz]]; simpl in *; elem_inv;
           rewrite ?negb_true_iff, ?negb_false_iff in *;
           first [ done
                 | congruence
                 | by (split; [elem_solve|done])
                 | apply RemoveFinalizer_removes ]
         | intros Hrm; elem_inv; by repeat split ] ]).
Qed.

End Deletion.

(** ** The unset type is the default type *)

Section Quiet.
Context {W : Type} (lib : Library) (r : HelmRepositoryReconciler W).
Implicit Types st : PassState W.

Lemma quiet_refl st : steady (obj st) → quiet st st.
Proof. intros Hs. split; [done|]. exists []. by rewrite app_nil_r. Qed.

Lemma quiet_trans st1 st2 st3 : quiet st1 st2 → quiet st2 st3 → quiet st1 st3.
Proof.
  intros [_ (l1 & H1 & F1)] [Hs (l2 & H2 & F2)]. split; [done|].
  exists (l1 ++ l2)%list. split.
  - by rewrite H2, H1, app_assoc.
  - by apply Forall_app.
Qed.

Lemma quiet_new_effects st st' :
  quiet st st' → Forall (λ e, is_purge e = false) (new_effects st st').
Proof. intros [_ (l & Hl & Hf)]. by rewrite (new_effects_app _ _ _ Hl). Qed.

(** Close a goal [quiet st st'] on an explicit state [st']. *)
Ltac quiet_solve Hs :=
  split;
  [ destruct Hs as [? ?]; split; simpl in *; done
  | eexists; split;
    [ cbn [trace log set_world upd_obj set_artifact set_chartRepo];
      rewrite <- ?app_assoc; try reflexivity; symmetry; apply app_nil_r
    | repeat constructor ] ].

Lemma garbageCollect_quiet st :
  steady (obj st) → quiet st (garbageCollect r st).2.
Proof.
  intros Hs. unfold garbageCollect, eventLogf.
  rewrite (purge_condition_false _ Hs).
  explode; quiet_solve Hs.
Qed.

Lemma reconcileStorage_quiet st :
  steady (obj st) → quiet st (reconcileStorage lib r st).2.
Proof.
  intros Hs. unfold reconcileStorage, garbageCollect, patch, eventLogf.
  rewrite (purge_condition_false _ Hs).
  explode; quiet_solve Hs.
Qed.

Lemma reconcileSource_quiet st :
  steady (obj st) → quiet st (reconcileSource lib r st).2.
Proof.
  intros Hs. unfold reconcileSource, reconcileSource_fetch, fetchFailed, patch.
  explode; quiet_solve Hs.
Qed.

Lemma reconcileArtifact_quiet st :
  steady (obj st) → quiet st (reconcileArtifact lib r st).2.
Proof.
  intros Hs.
  unfold reconcileArtifact, reconcileArtifact_deferred, reconcileArtifact_body,
    reconcileArtifact_locked, Symlink_result, eventLogf.
  explode; quiet_solve Hs.
Qed.

Lemma reconcile_persist_quiet st :
  steady (obj st) → quiet st (reconcile_persist lib r st).2.
Proof.
  intros Hs. unfold reconcile_persist, patch.
  explode; quiet_solve Hs.
Qed.

Lemma notify_quiet oldObj res resErr st :
  steady (obj st) → quiet st (notify lib oldObj res resErr st).
Proof.
  intros Hs. unfold notify.
  explode; quiet_solve Hs.
Qed.

(** The state in which the loop of reconcile ends, by return or by break. *)
Lemma reconcile_loop_quiet reconcilers :
  Forall (λ rec, ∀ st, steady (obj st) → quiet st (rec st).2) reconcilers →
  ∀ res st, steady (obj st) →
    quiet st (match reconcile_loop lib reconcilers res st with
              | inl out => out.2
              | inr out => out.2
              end).
Proof.
  induction 1 as [|rec recs Hrec _ IH]; intros res st Hs; simpl.
  - by apply quiet_refl.
  - specialize (Hrec st Hs). destruct (rec st) as [[recResult err] st1].
    simpl in Hrec. case_bool_decide; [done|].
    destruct err; [done|].
    eapply quiet_trans; [exact Hrec|]. apply IH. apply Hrec.
Qed.

Lemma reconcile_quiet st :
  steady (obj st) →
  quiet st (reconcile lib r [reconcileStorage lib r; reconcileSource lib r;
                             reconcileArtifact lib r] st).2.
Proof.
  intros Hs. unfold reconcile.
  pose proof (reconcile_persist_quiet st Hs) as Hp.
  destruct (reconcile_persist lib r st) as [[err|] st2]; [done|]. simpl in Hp.
  set (st3 := set_artifact Artifact_zero (set_chartRepo ChartRepository_zero st2)).
  assert (quiet st st3) as H3.
  { destruct Hp as [? (l & ? & ?)]. split; [done|]. exists l. split; assumption. }
  assert (Forall (λ rec, ∀ st, steady (obj st) → quiet st (rec st).2)
            [reconcileStorage lib r; reconcileSource lib r; reconcileArtifact lib r])
    as Hst.
  { constructor; [exact reconcileStorage_quiet|].
    constructor; [exact reconcileSource_quiet|].
    constructor; [exact reconcileArtifact_quiet|]. constructor. }
  pose proof (reconcile_loop_quiet _ Hst Result_zero st3 (proj1 H3)) as Hl.
  destruct (reconcile_loop lib _ Result_zero st3) as [out|[[res resErr] st4]].
  - eapply quiet_trans; [exact H3|exact Hl].
  - simpl in *. eapply quiet_trans; [exact H3|].
    eapply quiet_trans; [exact Hl|]. apply notify_quiet. apply Hl.
Qed.

End Quiet.

Lemma type_cases (o : HelmRepository) :
  (spec_Type (hr_Spec o) = "" ∨ spec_Type (hr_Spec o) = HelmRepositoryTypeDefault)
  ∨ (spec_Type (hr_Spec o) ≠ "" ∧ spec_Type (hr_Spec o) ≠ HelmRepositoryTypeDefault).
Proof.
  destruct (decide (spec_Type (hr_Spec o) = "")); [by left; left|].
  destruct (decide (spec_Type (hr_Spec o) = HelmRepositoryTypeDefault));
    [by left; right|by right].
Qed.

Lemma no_purge_in (l : list Effect) :
  Forall (λ e, is_purge e = false) l → ∀ err, ERemoveAll err ∉ l.
Proof.
  intros Hf err Hin. rewrite Forall_forall in Hf. by apply Hf in Hin.
Qed.

Section UnsetType.
Context {W : Type} (lib : Library) (r : HelmRepositoryReconciler W).
Implicit Types st : PassState W.

Lemma Reconcile_steady st :
  ContainsFinalizer (obj st) SourceFinalizer = true →
  steady (obj st) →
  Reconcile lib r st
  = (if spec_Suspend (hr_Spec (obj st)) then ((ResultEmpty, None), st)
     else reconcile lib r [reconcileStorage lib r; reconcileSource lib r;
                           reconcileArtifact lib r] st)
  ∧ quiet st (Reconcile lib r st).2.
Proof.
  intros Hfin Hs. unfold Reconcile.
  rewrite Hfin, (purge_condition_false _ Hs). cbn [negb].
  split; [done|].
  destruct (spec_Suspend (hr_Spec (obj st))).
  - by apply quiet_refl.
  - by apply reconcile_quiet.
Qed.

Lemma Reconcile_purges st :
  ContainsFinalizer (obj st) SourceFinalizer = true →
  DeletionTimestamp_IsZero (obj st) = false
  ∨ (spec_Type (hr_Spec (obj st)) ≠ ""
     ∧ spec_Type (hr_Spec (obj st)) ≠ HelmRepositoryTypeDefault) →
  Reconcile lib r st = reconcileDelete r st
  ∧ ∃ err, ERemoveAll err ∈ new_effects st (Reconcile lib r st).2.
Proof.
  intros Hfin Hp. apply purge_condition_true in Hp.
  unfold Reconcile. rewrite Hfin, Hp. cbn [negb].
  split; [done|].
  unfold reconcileDelete, garbageCollect, eventLogf. rewrite Hp.
  explode; trace_simpl; eexists; elem_solve.
Qed.

Lemma garbageCollect_purges st :
  DeletionTimestamp_IsZero (obj st) = true →
  (∃ err, ERemoveAll err ∈ new_effects st (garbageCollect r st).2)
  ↔ spec_Type (hr_Spec (obj st)) ≠ ""
    ∧ spec_Type (hr_Spec (obj st)) ≠ HelmRepositoryTypeDefault.
Proof.
  intros Hz. split.
  - intros [err Hin]. destruct (type_cases (obj st)) as [Ht|Ht]; [|done].
    exfalso. assert (steady (obj st)) as Hs by done.
    by apply (no_purge_in _ (quiet_new_effects _ _ (garbageCollect_quiet r st Hs)) err).
  - intros Ht.
    assert (negb (DeletionTimestamp_IsZero (obj st))
            || (negb (bool_decide (spec_Type (hr_Spec (obj st)) = ""))
                && negb (bool_decide (spec_Type (hr_Spec (obj st))
                                      = HelmRepositoryTypeDefault))) = true) as Hp
      by (apply purge_condition_true; by right).
    unfold garbageCollect, eventLogf. rewrite Hp.
    explode; trace_simpl; eexists; elem_solve.
Qed.

End UnsetType.

Lemma gate_bool (a b c d : bool) :
  (a || (b || false)) && ((c || (d || false)) && true) = true
  ↔ (a = true ∨ b = true) ∧ (c = true ∨ d = true).
Proof. destruct a, b, c, d; simpl; intuition congruence. Qed.

(** C9. The event filter lets an event on a HelmRepository pass exactly when
    its type (for Update: the type of the new object) is the default one or
    empty and one of the two change predicates accepts the event; a nil
    object or one of another kind never passes. In a pass on an object that
    has the finalizer and is not marked for deletion, the storage is purged
    exactly when the type is neither empty nor the default: with such a type
    the pass is the deletion path; with an empty or default type it is the
    suspension exit or the pipeline of the three sub-reconcilers, and no
    purge occurs anywhere in it. Likewise garbageCollect, on an object not
    marked for deletion, purges exactly when the type is neither empty nor
    the default, and with an empty type it leaves the object as it is. *)
Theorem unset_type_is_default :
  (∀ (generationChanged reconcileRequested : AnyPredicate)
     (hr : HelmRepository) (old : client_Object) (unknown : bool) (kind : string),
     let f := eventFilter generationChanged reconcileRequested in
     let typed := spec_Type (hr_Spec hr) = HelmRepositoryTypeDefault
                  ∨ spec_Type (hr_Spec hr) = "" in
     (∀ e, ce_Object e = HelmRepositoryObject hr →
           (any_Create f e = true
            ↔ typed ∧ (any_Create generationChanged e = true
                       ∨ any_Create reconcileRequested e = true)))
     ∧ (∀ e, ue_ObjectNew e = HelmRepositoryObject hr →
             (any_Update f e = true
              ↔ typed ∧ (any_Update generationChanged e = true
                         ∨ any_Update reconcileRequested e = true)))
     ∧ (∀ e, de_Object e = HelmRepositoryObject hr →
             (any_Delete f e = true
              ↔ typed ∧ (any_Delete generationChanged e = true
                         ∨ any_Delete reconcileRequested e = true)))
     ∧ (∀ e, ge_Object e = HelmRepositoryObject hr →
             (any_Generic f e = true
              ↔ typed ∧ (any_Generic generationChanged e = true
                         ∨ any_Generic reconcileRequested e = true)))
     ∧ any_Create f (mkCreateEvent NilObject) = false
     ∧ any_Create f (mkCreateEvent (OtherObject kind)) = false
     ∧ any_Update f (mkUpdateEvent old NilObject) = false
     ∧ any_Update f (mkUpdateEvent old (OtherObject kind)) = false
     ∧ any_Delete f (mkDeleteEvent NilObject unknown) = false
     ∧ any_Delete f (mkDeleteEvent (OtherObject kind) unknown) = false
     ∧ any_Generic f (mkGenericEvent NilObject) = false
     ∧ any_Generic f (mkGenericEvent (OtherObject kind)) = false)
  ∧ (∀ (W : Type) (lib : Library) (r : HelmRepositoryReconciler W) (st : PassState W),
       ContainsFinalizer (obj st) SourceFinalizer = true →
       DeletionTimestamp_IsZero (obj st) = true →
       ((∃ err, ERemoveAll err ∈ new_effects st (Reconcile lib r st).2)
        ↔ spec_Type (hr_Spec (obj st)) ≠ ""
          ∧ spec_Type (hr_Spec (obj st)) ≠ HelmRepositoryTypeDefault)
       ∧ (spec_Type (hr_Spec (obj st)) ≠ ""
          ∧ spec_Type (hr_Spec (obj st)) ≠ HelmRepositoryTypeDefault →
          Reconcile lib r st = reconcileDelete r st)
       ∧ (spec_Type (hr_Spec (obj st)) = ""
          ∨ spec_Type (hr_Spec (obj st)) = HelmRepositoryTypeDefault →
          Reconcile lib r st
          = (if spec_Suspend (hr_Spec (obj st)) then ((ResultEmpty, None), st)
             else reconcile lib r [reconcileStorage lib r; reconcileSource lib r;
                                   reconcileArtifact lib r] st)
          ∧ Forall (λ e, is_purge e = false) (new_effects st (Reconcile lib r st).2)))
  ∧ (∀ (W : Type) (r : HelmRepositoryReconciler W) (st : PassState W),
       DeletionTimestamp_IsZero (obj st) = true →
       ((∃ err, ERemoveAll err ∈ new_effects st (garbageCollect r st).2)
        ↔ spec_Type (hr_Spec (obj st)) ≠ ""
          ∧ spec_Type (hr_Spec (obj st)) ≠ HelmRepositoryTypeDefault)
       ∧ (spec_Type (hr_Spec (obj st)) = "" →
          obj (garbageCollect r st).2 = obj st)).
Proof.
  split; [|split].
  - intros gen req hr old unknown kind f typed. subst f typed.
    repeat apply conj; try reflexivity.
    all: intros e He; cbn; rewrite He; cbn;
      by rewrite gate_bool, !bool_decide_eq_true.
  - intros W lib r st Hfin Hz. split; [split|split].
    + intros [err Hin]. destruct (type_cases (obj st)) as [Ht|Ht]; [|done].
      exfalso. assert (steady (obj st)) as Hs by done.
      destruct (Reconcile_steady lib r st Hfin Hs) as [_ Hq].
      by apply (no_purge_in _ (quiet_new_effects _ _ Hq) err).
    + intros Ht. by apply Reconcile_purges; [|right].
    + intros Ht. by apply Reconcile_purges; [|right].
    + intros Ht. assert (steady (obj st)) as Hs by done.
      destruct (Reconcile_steady lib r st Hfin Hs) as [Heq Hq].
      split; [done|]. by apply quiet_new_effects.
  - intros W r st Hz. split; [by apply garbageCollect_purges|].
    intros Ht. unfold garbageCollect, eventLogf.
    rewrite (purge_condition_false (obj st)) by (split; [done|by left]).
    explode; done.
Qed.

(** ** Instances on the scripted reconciler *)

Lemma migration_predicate_fires_iff_witness :
  HelmRepositoryOCIRequireMigration
    (HelmRepositoryObject
       (ex_repo None [] (ex_spec HelmRepositoryTypeOCI false)
          (mkStatus (-1) None "" None ""))) = true.
Proof.
  refine (proj1 (proj2 (proj2 (proj2 (proj2
            (migration_predicate_fires_iff (mkMigrationPredicate Funcs_zero)
               (ex_repo None [] (ex_spec HelmRepositoryTypeOCI false)
                  (mkStatus (-1) None "" None ""))
               NilObject false))))) eq_refl _).
  left. discriminate.
Defined.

Lemma migration_predicate_generic_passes_witness :
  Create (mkMigrationPredicate Funcs_zero) (mkCreateEvent (HelmRepositoryObject ex_fresh))
    = false
  ∧ Generic (mkMigrationPredicate Funcs_zero)
      (mkGenericEvent (HelmRepositoryObject ex_fresh)) = true.
Proof.
  assert (¬ RequireMigration_spec ex_fresh) as Hn by (intros [Ht _]; discriminate).
  destruct (proj2 (proj2 (proj2 migration_predicate_generic_passes))
              ex_fresh NilObject false Hn) as (Hc & _ & _ & Hg).
  split; [exact Hc|exact Hg].
Defined.

Lemma notify_emits_witness :
  notify ex_lib ex_stored ResultEmpty None (ex_state ex_stored) = ex_state ex_stored.
Proof.
  refine (proj1 (proj2 (proj2 (proj2
            (notify_emits ex_lib (ex_reconciler ex_ok) ex_stored ResultEmpty None
               (ex_state ex_stored))))) _).
  right. left. discriminate.
Defined.

Lemma gc_errors_swallowed_or_blocking_witness :
  ((reconcileStorage ex_lib (ex_reconciler ex_gc_fails) (ex_state ex_stored)).1
   = (ResultSuccess, None)
   ∧ ∃ rest,
       new_effects (ex_state ex_stored)
         (reconcileStorage ex_lib (ex_reconciler ex_gc_fails) (ex_state ex_stored)).2
       = EGarbageCollect (Some (Err "device busy")) :: rest
       ∧ ∃ found, EArtifactExist found ∈ rest)
  ∧ (Reconcile ex_lib (ex_reconciler ex_gc_fails) (ex_state ex_deleted)).1
    = (ResultEmpty,
       Some (Event "GarbageCollectionFailed"
               "garbage collection for deleted resource failed" (Err "device busy")))
  ∧ obj (Reconcile ex_lib (ex_reconciler ex_gc_fails) (ex_state ex_deleted)).2
    = ex_deleted.
Proof.
  split.
  { split; [vm_compute; reflexivity|].
    exact (proj1 (proj2 (proj1 (gc_errors_swallowed_or_blocking ex_lib
                                  (ex_reconciler ex_gc_fails) (ex_state ex_stored))))
             ex_artifact (conj eq_refl (or_intror eq_refl)) eq_refl). }
  assert (ERemoveAll (Some (Err "device busy"))
            ∈ new_effects (ex_state ex_deleted)
                (Reconcile ex_lib (ex_reconciler ex_gc_fails) (ex_state ex_deleted)).2)
    as Hfail by (vm_compute; elem_solve).
  destruct (proj1 (proj2 (gc_errors_swallowed_or_blocking ex_lib
                            (ex_reconciler ex_gc_fails) (ex_state ex_deleted))
                     eq_refl (or_introl eq_refl)) _ Hfail) as (Hret & Hobj & _).
  split; [exact Hret|exact Hobj].
Defined.

Lemma unset_type_is_default_witness :
  Forall (λ e, is_purge e = false)
    (new_effects (ex_state ex_unset)
       (Reconcile ex_lib (ex_reconciler ex_ok) (ex_state ex_unset)).2).
Proof.
  refine (proj2 (proj2 (proj2 (proj1 (proj2 unset_type_is_default)
            nat ex_lib (ex_reconciler ex_ok) (ex_state ex_unset) eq_refl eq_refl))
            (or_introl eq_refl))).
Defined.

(** ** The idempotency short-circuit *)

Lemma conditions_Get_Delete (o : HelmRepository) (t : string) :
  conditions_Get (conditions_Delete o t) t = None.
Proof.
  unfold conditions_Get, conditions_Delete, SetConditions, GetConditions. simpl.
  induction (default [] (status_Conditions (hr_Status o))) as [|c cs IH]; [done|].
  rewrite filter_cons. destruct (decide (cond_Type c ≠ t)) as [Hne|He]; [|done].
  simpl. by rewrite bool_decide_eq_false_2.
Qed.

Lemma conditions_Get_Delete_other (o : HelmRepository) (t t' : string) :
  conditions_Get o t = None → conditions_Get (conditions_Delete o t') t = None.
Proof.
  unfold conditions_Get, conditions_Delete, SetConditions, GetConditions. simpl.
  induction (default [] (status_Conditions (hr_Status o))) as [|c cs IH]; [done|].
  simpl. case_bool_decide as Hc; [done|]. intros Hn.
  rewrite filter_cons. destruct (decide (cond_Type c ≠ t')); [|by apply IH].
  simpl. rewrite bool_decide_eq_false_2 by done. by apply IH.
Qed.

Lemma conditions_Get_MarkTrue_other (o : HelmRepository) (t t' reason message : string) :
  t' ≠ t →
  conditions_Get o t = None →
  conditions_Get (conditions_MarkTrue o t' reason message) t = None.
Proof.
  intros Hne.
  unfold conditions_Get, conditions_MarkTrue, SetConditions, GetConditions. simpl.
  induction (default [] (status_Conditions (hr_Status o))) as [|c cs IH]; simpl.
  - by rewrite bool_decide_eq_false_2.
  - case_bool_decide as Hc; [done|]. intros Hn.
    case_bool_decide as Hc'; simpl.
    + by rewrite bool_decide_eq_false_2.
    + rewrite bool_decide_eq_false_2 by done. by apply IH.
Qed.

Section ShortCircuit.
Context {W : Type} (lib : Library) (r : HelmRepositoryReconciler W).
Implicit Types st : PassState W.

Lemma reconcileSource_fetch_ok st newChartRepo st1 :
  reconcileSource_fetch lib r st = (inr newChartRepo, st1) →
  obj st1 = obj st ∧ artifact st1 = artifact st
  ∧ ∃ l, trace st1 = (trace st ++ l)%list ∧ Forall (λ e, is_fetch e = true) l.
Proof.
  unfold reconcileSource_fetch, fetchFailed.
  explode; intros Heq; simplify_eq; repeat split; try done;
    eexists;
    (split; [cbn [trace log set_world upd_obj]; rewrite <- ?app_assoc; reflexivity|]);
    repeat constructor.
Qed.

Lemma reconcileStorage_no_write st :
  Forall (λ e, is_storage_write e = false ∧ is_cache_set e = false)
    (new_effects st (reconcileStorage lib r st).2).
Proof.
  unfold reconcileStorage, garbageCollect, patch, eventLogf.
  explode; trace_simpl; repeat constructor.
Qed.

(** C1. Let the fetch of reconcileSource succeed and hand back the remote
    index, and let the object already have an artifact whose digest (its
    Digest, or its transformed legacy Checksum when the Digest is empty) is
    valid and equals the digest of the fetched index under the same
    algorithm. Then reconcileSource returns ResultSuccess with no error, the
    candidate slot holds the current artifact itself, the status keeps it,
    FetchFailed is cleared, and since the fetch nothing was called: the
    pass called neither the index validation nor a patch. reconcileArtifact,
    run next, returns ResultSuccess with no error and leaves the status
    artifact as it is. From the start of reconcileSource to the end of
    reconcileArtifact nothing was written to storage and the cache was not
    populated, and reconcileStorage, which runs before, never does either. *)
Theorem unchanged_index_short_circuits :
  ∀ st newChartRepo st1 curArtifact,
    reconcileSource_fetch lib r st = (inr newChartRepo, st1) →
    GetArtifact (obj st) = Some curArtifact →
    digest_Validate lib (currentDigest lib curArtifact) = true →
    ChartRepository_Digest lib newChartRepo
      (digest_Algorithm lib (currentDigest lib curArtifact))
      = currentDigest lib curArtifact →
    (reconcileSource lib r st).1 = (ResultSuccess, None)
    ∧ artifact (reconcileSource lib r st).2 = curArtifact
    ∧ GetArtifact (obj (reconcileSource lib r st).2) = Some curArtifact
    ∧ conditions_Get (obj (reconcileSource lib r st).2) FetchFailedCondition = None
    ∧ new_effects st1 (reconcileSource lib r st).2 = []
    ∧ Forall (λ e, is_fetch e = true) (new_effects st (reconcileSource lib r st).2)
    ∧ (reconcileArtifact lib r (reconcileSource lib r st).2).1 = (ResultSuccess, None)
    ∧ GetArtifact (obj (reconcileArtifact lib r (reconcileSource lib r st).2).2)
      = Some curArtifact
    ∧ conditions_Get (obj (reconcileArtifact lib r (reconcileSource lib r st).2).2)
        FetchFailedCondition = None
    ∧ Forall (λ e, is_storage_write e = false ∧ is_cache_set e = false
                   ∧ is_validation e = false)
        (new_effects st (reconcileArtifact lib r (reconcileSource lib r st).2).2)
    ∧ (∀ st0, Forall (λ e, is_storage_write e = false ∧ is_cache_set e = false)
                (new_effects st0 (reconcileStorage lib r st0).2)).
Proof.
  intros st newChartRepo st1 cur Hfetch Hcur Hvalid Hdig.
  destruct (reconcileSource_fetch_ok _ _ _ Hfetch) as (Hobj & Hart & l & Hl & Hfl).
  assert (reconcileSource lib r st
          = ((ResultSuccess, None),
             upd_obj (λ o, conditions_Delete o FetchFailedCondition)
               (set_artifact cur (set_chartRepo newChartRepo st1)))) as Hsrc.
  { unfold reconcileSource. rewrite Hfetch.
    cbn [obj set_chartRepo chartRepo]. rewrite Hobj, Hcur, Hvalid, Hdig, Hvalid.
    by rewrite bool_decide_eq_true_2. }
  rewrite Hsrc. cbn [fst snd].
  set (st2 := upd_obj _ _).
  assert (GetArtifact (obj st2) = Some cur) as Hcur2.
  { subst st2. cbn. by rewrite Hobj. }
  assert (conditions_Get (obj st2) FetchFailedCondition = None) as Hff.
  { subst st2. cbn [obj upd_obj]. apply conditions_Get_Delete. }
  assert (trace st2 = (trace st ++ l)%list) as Htr by done.
  repeat apply conj; try done.
  - apply new_effects_app. subst st2. cbn. by rewrite app_nil_r.
  - by rewrite (new_effects_app _ _ _ Htr).
  - unfold reconcileArtifact, reconcileArtifact_body.
    rewrite Hcur2. subst st2. cbn [artifact upd_obj set_artifact HasRevision HasChecksum].
    rewrite !bool_decide_eq_true_2 by done. by cbn.
  - unfold reconcileArtifact, reconcileArtifact_body, reconcileArtifact_deferred, eventLogf.
    rewrite Hcur2. replace (artifact st2) with cur by done.
    cbn [HasRevision HasChecksum]. rewrite !bool_decide_eq_true_2 by done.
    cbn [andb]. explode; done.
  - unfold reconcileArtifact, reconcileArtifact_body, reconcileArtifact_deferred, eventLogf.
    rewrite Hcur2. replace (artifact st2) with cur by done.
    cbn [HasRevision HasChecksum]. rewrite !bool_decide_eq_true_2 by done.
    cbn [andb]. explode.
    all: try (apply conditions_Get_MarkTrue_other; [done|];
              by apply conditions_Get_Delete_other).
    all: done.
  - unfold reconcileArtifact, reconcileArtifact_body, reconcileArtifact_deferred, eventLogf.
    rewrite Hcur2. replace (artifact st2) with cur by done.
    cbn [HasRevision HasChecksum]. rewrite !bool_decide_eq_true_2 by done.
    cbn [andb].
    assert (Forall (λ e, is_storage_write e = false ∧ is_cache_set e = false
                         ∧ is_validation e = false) l) as Hl'.
    { eapply Forall_impl; [exact Hfl|]. by intros []. }
    explode; unfold new_effects; cbn [trace log set_world upd_obj set_chartRepo];
      rewrite Htr, <- ?app_assoc, drop_app_length;
      (apply Forall_app; split; [exact Hl'|]); repeat constructor.
  - apply reconcileStorage_no_write.
Qed.

End ShortCircuit.

Lemma unchanged_index_short_circuits_witness :
  (reconcileSource ex_lib (ex_reconciler ex_ok) (ex_state ex_stored)).1
    = (ResultSuccess, None)
  ∧ artifact (reconcileSource ex_lib (ex_reconciler ex_ok) (ex_state ex_stored)).2
    = ex_artifact
  ∧ (reconcileArtifact ex_lib (ex_reconciler ex_ok)
       (reconcileSource ex_lib (ex_reconciler ex_ok) (ex_state ex_stored)).2).1
    = (ResultSuccess, None).
Proof.
  destruct (unchanged_index_short_circuits ex_lib (ex_reconciler ex_ok)
              (ex_state ex_stored)
              (mkChartRepository "https://charts.example.com" "/tmp/index.yaml"
                 (Some "A"))
              (reconcileSource_fetch ex_lib (ex_reconciler ex_ok) (ex_state ex_stored)).2
              ex_artifact eq_refl eq_refl eq_refl eq_refl)
    as (Hsrc & Hslot & _ & _ & _ & _ & Hart & _).
  split; [exact Hsrc|]. split; [exact Hslot|exact Hart].
Defined.

(** * Further properties of the reconciler *)

(** ** Outcomes of the sub-reconcilers *)

(** The credentials option only feeds the getter options: it is abstracted
    before the case analysis of reconcileSource. *)
Ltac hide_options :=
  try (set (pc := if spec_PassCredentials _ then _ else _) in *; clearbody pc).

Section Outcomes.
Context {W : Type} (lib : Library) (r : HelmRepositoryReconciler W).
Implicit Types st : PassState W.

Lemma reconcileStorage_outcome st : success_or_error (reconcileStorage lib r st).1.
Proof.
  unfold success_or_error, reconcileStorage, garbageCollect, patch, eventLogf.
  explode; first [by left | right; by eexists].
Qed.

Lemma reconcileSource_outcome st : success_or_error (reconcileSource lib r st).1.
Proof.
  unfold success_or_error, reconcileSource, reconcileSource_fetch, fetchFailed, patch. hide_options.
  explode; first [by left | right; by eexists].
Qed.

Lemma reconcileArtifact_outcome st : success_or_error (reconcileArtifact lib r st).1.
Proof.
  unfold success_or_error, reconcileArtifact, reconcileArtifact_deferred,
    reconcileArtifact_body, reconcileArtifact_locked, Symlink_result, eventLogf.
  explode; first [by left | right; by eexists].
Qed.

(** X1. None of the three sub-reconcilers ever asks for a requeue: each
    returns ResultSuccess without error or ResultEmpty with an error.
    Hence the pass over the three of them returns ResultEmpty with an error
    (of the initial patch or of the first failing sub-reconciler), or no
    error and the three successes merged by LowestRequeuingResult; it never
    returns an error together with another result. *)
Theorem pipeline_never_requeues :
  ∀ st,
    success_or_error (reconcileStorage lib r st).1
    ∧ success_or_error (reconcileSource lib r st).1
    ∧ success_or_error (reconcileArtifact lib r st).1
    ∧ ((∃ e, (reconcile lib r [reconcileStorage lib r; reconcileSource lib r;
                               reconcileArtifact lib r] st).1 = (ResultEmpty, Some e))
       ∨ (reconcile lib r [reconcileStorage lib r; reconcileSource lib r;
                           reconcileArtifact lib r] st).1
         = (fold_left (LowestRequeuingResult lib)
              [ResultSuccess; ResultSuccess; ResultSuccess] Result_zero, None)).
Proof.
  intros st.
  split; [apply reconcileStorage_outcome|].
  split; [apply reconcileSource_outcome|].
  split; [apply reconcileArtifact_outcome|].
  unfold reconcile.
  destruct (reconcile_persist lib r st) as [[err|] st2]; [left; by eexists|].
  set (st3 := set_artifact _ _). cbn [reconcile_loop].
  pose proof (reconcileStorage_outcome st3) as H1.
  destruct (reconcileStorage lib r st3) as [[r1 e1] s1].
  destruct H1 as [H1|[e H1]]; simplify_eq/=; [|left; by eexists].
  pose proof (reconcileSource_outcome s1) as H2.
  destruct (reconcileSource lib r s1) as [[r2 e2] s2].
  destruct H2 as [H2|[e H2]]; simplify_eq/=; [|left; by eexists].
  pose proof (reconcileArtifact_outcome s2) as H3.
  destruct (reconcileArtifact lib r s2) as [[r3 e3] s3].
  destruct H3 as [H3|[e H3]]; simplify_eq/=; [|left; by eexists].
  by right.
Qed.

End Outcomes.

(** ** What a pass may change on the object *)

Lemma status_only_refl (o : HelmRepository) : status_only o o.
Proof. by destruct o. Qed.

Lemma status_only_trans (o1 o2 o3 : HelmRepository) :
  status_only o1 o2 → status_only o2 o3 → status_only o1 o3.
Proof. unfold status_only. intros -> ->. reflexivity. Qed.

Section Frames.
Context {W : Type} (lib : Library) (r : HelmRepositoryReconciler W).
Implicit Types st : PassState W.

Lemma reconcileStorage_status_only st :
  status_only (obj st) (obj (reconcileStorage lib r st).2).
Proof.
  unfold status_only, reconcileStorage, garbageCollect, patch, eventLogf.
  explode; by destruct (obj st).
Qed.

Lemma reconcileSource_conditions_only st :
  conditions_only (obj st) (obj (reconcileSource lib r st).2).
Proof.
  unfold conditions_only, reconcileSource, reconcileSource_fetch, fetchFailed, patch. hide_options.
  explode; by destruct (obj st) as [? ? ? ? ? ? ? ? []].
Qed.

Lemma conditions_only_status_only (o o' : HelmRepository) :
  conditions_only o o' → status_only o o'.
Proof. unfold conditions_only, status_only. intros ->. reflexivity. Qed.

Lemma reconcileArtifact_status_only st :
  status_only (obj st) (obj (reconcileArtifact lib r st).2).
Proof.
  unfold status_only, reconcileArtifact, reconcileArtifact_deferred,
    reconcileArtifact_body, reconcileArtifact_locked, Symlink_result, eventLogf.
  explode; by destruct (obj st).
Qed.

Lemma reconcile_persist_status_only st :
  status_only (obj st) (obj (reconcile_persist lib r st).2).
Proof.
  unfold status_only, reconcile_persist, patch.
  explode; by destruct (obj st).
Qed.

Lemma notify_obj oldObj res resErr st : obj (notify lib oldObj res resErr st) = obj st.
Proof. unfold notify. explode; done. Qed.

Lemma reconcile_loop_status_only reconcilers :
  Forall (λ rec, ∀ st, status_only (obj st) (obj (rec st).2)) reconcilers →
  ∀ res st,
    status_only (obj st)
      (obj (match reconcile_loop lib reconcilers res st with
            | inl out => out.2
            | inr out => out.2
            end)).
Proof.
  induction 1 as [|rec recs Hrec _ IH]; intros res st; simpl.
  - apply status_only_refl.
  - specialize (Hrec st). destruct (rec st) as [[recResult err] st1].
    simpl in Hrec. case_bool_decide; [done|].
    destruct err; [done|].
    eapply status_only_trans; [exact Hrec|]. apply IH.
Qed.

Lemma reconcile_status_only st :
  status_only (obj st)
    (obj (reconcile lib r [reconcileStorage lib r; reconcileSource lib r;
                           reconcileArtifact lib r] st).2).
Proof.
  unfold reconcile.
  pose proof (reconcile_persist_status_only st) as Hp.
  destruct (reconcile_persist lib r st) as [[err|] st2]; [done|]. simpl in Hp.
  set (st3 := set_artifact Artifact_zero (set_chartRepo ChartRepository_zero st2)).
  assert (Forall (λ rec, ∀ st, status_only (obj st) (obj (rec st).2))
            [reconcileStorage lib r; reconcileSource lib r; reconcileArtifact lib r])
    as Hst.
  { constructor; [exact reconcileStorage_status_only|].
    constructor;
      [intros s; apply conditions_only_status_only, reconcileSource_conditions_only|].
    constructor; [exact reconcileArtifact_status_only|]. constructor. }
  pose proof (reconcile_loop_status_only _ Hst Result_zero st3) as Hl.
  destruct (reconcile_loop lib _ Result_zero st3) as [out|[[res resErr] st4]].
  - eapply status_only_trans; [exact Hp|exact Hl].
  - simpl in *. eapply status_only_trans; [exact Hp|].
    eapply status_only_trans; [exact Hl|].
    rewrite notify_obj. apply status_only_refl.
Qed.

(** X2. A pass changes nothing of the object but its status and its
    finalizers. The pipeline of the three sub-reconcilers leaves kind,
    metadata and spec as they were, and reconcileSource changes nothing but
    the conditions of the status. Over a whole pass, the finalizers other
    than the tracking finalizer are those the object had. *)
Theorem pass_changes_status_and_finalizer_only :
  ∀ st,
    status_only (obj st)
      (obj (reconcile lib r [reconcileStorage lib r; reconcileSource lib r;
                             reconcileArtifact lib r] st).2)
    ∧ conditions_only (obj st) (obj (reconcileSource lib r st).2)
    ∧ obj (Reconcile lib r st).2
      = set_Finalizers (meta_Finalizers (obj (Reconcile lib r st).2))
          (set_Status (λ _, hr_Status (obj (Reconcile lib r st).2)) (obj st))
    ∧ (∀ f, f ≠ SourceFinalizer →
            (f ∈ meta_Finalizers (obj (Reconcile lib r st).2)
             ↔ f ∈ meta_Finalizers (obj st))).
Proof.
  intros st.
  split; [apply reconcile_status_only|].
  split; [apply reconcileSource_conditions_only|].
  unfold Reconcile.
  destruct (ContainsFinalizer (obj st) SourceFinalizer) eqn:Hfin; cbn [negb].
  - destruct (negb (DeletionTimestamp_IsZero (obj st)) || _) eqn:Hp.
    + unfold reconcileDelete, garbageCollect, eventLogf. rewrite Hp.
      explode; (split; [by destruct (obj st)|]); intros f Hf; try done.
      all: unfold RemoveFinalizer; simpl; rewrite list_elem_of_filter; tauto.
    + destruct (spec_Suspend (hr_Spec (obj st))).
      * simpl. split; [by destruct (obj st)|reflexivity].
      * pose proof (reconcile_status_only st) as Hs. unfold status_only in Hs.
        set (o' := obj (reconcile lib r _ st).2) in *. clearbody o'.
        assert (meta_Finalizers o' = meta_Finalizers (obj st)) as Hf
          by (rewrite Hs; reflexivity).
        split; [|intros f _; by rewrite Hf].
        rewrite Hf. rewrite Hs at 1. by destruct (obj st).
  - simpl. unfold AddFinalizer. rewrite Hfin. simpl.
    split; [by destruct (obj st)|].
    intros f Hf. rewrite elem_of_app, list_elem_of_singleton. tauto.
Qed.

End Frames.

Lemma pass_changes_status_and_finalizer_only_witness :
  "other.io/finalizer" ∈ meta_Finalizers
     (obj (Reconcile ex_lib (ex_reconciler ex_ok)
             (ex_state (ex_repo (Some 5) ["other.io/finalizer"; SourceFinalizer]
                          (ex_spec HelmRepositoryTypeDefault false)
                          ex_status_stored))).2).
Proof.
  apply (proj2 (proj2 (proj2 (pass_changes_status_and_finalizer_only ex_lib
                  (ex_reconciler ex_ok)
                  (ex_state (ex_repo (Some 5) ["other.io/finalizer"; SourceFinalizer]
                               (ex_spec HelmRepositoryTypeDefault false)
                               ex_status_stored)))))).
  - discriminate.
  - apply elem_of_cons. by left.
Defined.

(** ** Conditions kept and set by the artifact stage *)

Lemma find_set_condition_same (c : Condition) (l : list Condition) :
  List.find (λ x, bool_decide (cond_Type x = cond_Type c)) (set_condition c l) = Some c.
Proof.
  induction l as [|x l IH]; simpl.
  - by rewrite bool_decide_eq_true_2.
  - case_bool_decide as Hx; simpl.
    + by rewrite bool_decide_eq_true_2.
    + by rewrite bool_decide_eq_false_2.
Qed.

Lemma find_set_condition_ne (c : Condition) (t : string) (l : list Condition) :
  cond_Type c ≠ t →
  List.find (λ x, bool_decide (cond_Type x = t)) (set_condition c l)
  = List.find (λ x, bool_decide (cond_Type x = t)) l.
Proof.
  intros Hne. induction l as [|x l IH]; simpl.
  - by rewrite bool_decide_eq_false_2.
  - case_bool_decide as Hx; simpl.
    + rewrite !bool_decide_eq_false_2 by congruence. done.
    + by rewrite IH.
Qed.

Lemma find_filter_ne (t t' : string) (l : list Condition) :
  t' ≠ t →
  List.find (λ x, bool_decide (cond_Type x = t)) (filter (λ c, cond_Type c ≠ t') l)
  = List.find (λ x, bool_decide (cond_Type x = t)) l.
Proof.
  intros Hne. induction l as [|x l IH]; [done|].
  rewrite filter_cons. destruct (decide (cond_Type x ≠ t')) as [Hx|Hx]; simpl.
  - by rewrite IH.
  - apply dec_stable in Hx. rewrite bool_decide_eq_false_2 by congruence. done.
Qed.

Lemma find_filter_same (t : string) (l : list Condition) :
  List.find (λ x, bool_decide (cond_Type x = t)) (filter (λ c, cond_Type c ≠ t) l) = None.
Proof.
  induction l as [|x l IH]; [done|].
  rewrite filter_cons. destruct (decide (cond_Type x ≠ t)) as [Hx|Hx]; simpl; [|done].
  by rewrite bool_decide_eq_false_2.
Qed.

Lemma conditions_Get_MarkTrue (o : HelmRepository) (t reason message : string) :
  conditions_Get (conditions_MarkTrue o t reason message) t
  = Some (mkCondition t "True" reason message).
Proof.
  unfold conditions_Get, conditions_MarkTrue, SetConditions, GetConditions. simpl.
  apply (find_set_condition_same (mkCondition t "True" reason message)).
Qed.

Lemma conditions_Get_MarkTrue_ne (o : HelmRepository) (t t' reason message : string) :
  t' ≠ t →
  conditions_Get (conditions_MarkTrue o t' reason message) t = conditions_Get o t.
Proof.
  intros Hne. unfold conditions_Get, conditions_MarkTrue, SetConditions, GetConditions.
  simpl. by apply find_set_condition_ne.
Qed.

Lemma conditions_Get_Delete_ne (o : HelmRepository) (t t' : string) :
  t' ≠ t → conditions_Get (conditions_Delete o t') t = conditions_Get o t.
Proof.
  intros Hne. unfold conditions_Get, conditions_Delete, SetConditions, GetConditions.
  simpl. by apply find_filter_ne.
Qed.

Lemma conditions_Get_with_Artifact (o : HelmRepository) (a : option Artifact) (t : string) :
  conditions_Get (set_Status (with_Artifact a) o) t = conditions_Get o t.
Proof. reflexivity. Qed.

Lemma conditions_Get_with_URL (o : HelmRepository) (u t : string) :
  conditions_Get (set_Status (with_URL u) o) t = conditions_Get o t.
Proof. reflexivity. Qed.

(** Rewrite the conditions of an object built by the stages down to those of
    the object the stage started from. *)
Ltac conditions_simpl :=
  repeat first
    [ rewrite conditions_Get_MarkTrue
    | rewrite conditions_Get_Delete
    | rewrite conditions_Get_MarkTrue_ne by discriminate
    | rewrite conditions_Get_Delete_ne by discriminate
    | rewrite conditions_Get_with_Artifact
    | rewrite conditions_Get_with_URL ].

Section ArtifactConditions.
Context {W : Type} (lib : Library) (r : HelmRepositoryReconciler W).
Implicit Types st : PassState W.

(** X3. When reconcileArtifact succeeds, whether it wrote to storage or found
    the artifact up to date, the artifact of the status has the revision of
    the candidate, ArtifactInStorage is True with reason Succeeded and a
    message naming that revision, and ArtifactOutdated is gone; after a
    write, StorageOperationFailed is gone too. *)
Theorem artifact_success_conditions :
  ∀ st,
    (reconcileArtifact lib r st).1 = (ResultSuccess, None) →
    HasRevision lib (GetArtifact (obj (reconcileArtifact lib r st).2))
      (art_Revision (artifact (reconcileArtifact lib r st).2)) = true
    ∧ conditions_Get (obj (reconcileArtifact lib r st).2) ArtifactInStorageCondition
      = Some (mkCondition ArtifactInStorageCondition "True" SucceededReason
                ("stored artifact: revision '"
                 ++ art_Revision (artifact (reconcileArtifact lib r st).2) ++ "'"))
    ∧ conditions_Get (obj (reconcileArtifact lib r st).2) ArtifactOutdatedCondition = None
    ∧ (ECopyFromPath None ∈ new_effects st (reconcileArtifact lib r st).2 →
       conditions_Get (obj (reconcileArtifact lib r st).2)
         StorageOperationFailedCondition = None).
Proof.
  intros st.
  destruct (reconcileArtifact lib r st) as [ret st'] eqn:Hrun. cbn [fst snd].
  revert Hrun.
  unfold reconcileArtifact, reconcileArtifact_deferred, reconcileArtifact_body,
    reconcileArtifact_locked, Symlink_result, eventLogf.
  explode; intros Hrun Hret; simplify_eq.
  all: try match goal with
           | H : _ && _ = true |- _ => apply andb_true_iff in H as [? ?]
           end.
  all: repeat match goal with
           | H : bool_decide _ = _ |- _ => revert H
           | H : HasRevision _ _ _ = _ |- _ => revert H
           end.
  all: cbn [HasRevision GetArtifact obj artifact upd_obj set_artifact set_chartRepo
            set_world log hr_Status set_Status with_Artifact with_URL status_Artifact].
  all: intros; try congruence.
  all: (split; [first [assumption | by apply bool_decide_eq_true_2]|]).
  all: trace_simpl; conditions_simpl; repeat split; try done.
  all: intros; elem_inv.
  all: match goal with
       | H : bool_decide (?x = ?x) = false |- _ =>
           by rewrite bool_decide_eq_true_2 in H
       end.
Qed.

(** X4. A failed directory creation or a failed copy leaves
    StorageOperationFailed True on the object, with the reason of the step
    and, as message, the text of the returned error taken as a format
    without operands (so a verb in the text is not kept as it is); a failed
    lock acquisition returns its error with the reason Failed but leaves
    StorageOperationFailed as it was. None of the three touches the URL of
    the status. *)
Theorem artifact_failure_conditions :
  ∀ st err,
    (EMkdirAll (Some err) ∈ new_effects st (reconcileArtifact lib r st).2 →
     conditions_Get (obj (reconcileArtifact lib r st).2) StorageOperationFailedCondition
     = Some (mkCondition StorageOperationFailedCondition "True" DirCreationFailedReason
               (fmt_Sprintf lib
                  (error_Error (Event DirCreationFailedReason
                                  "failed to create artifact directory" err))))
     ∧ status_URL (hr_Status (obj (reconcileArtifact lib r st).2))
       = status_URL (hr_Status (obj st)))
    ∧ (ECopyFromPath (Some err) ∈ new_effects st (reconcileArtifact lib r st).2 →
       conditions_Get (obj (reconcileArtifact lib r st).2) StorageOperationFailedCondition
       = Some (mkCondition StorageOperationFailedCondition "True"
                 ArchiveOperationFailedReason
                 (fmt_Sprintf lib
                    (error_Error (Event ArchiveOperationFailedReason
                                    "unable to save artifact to storage" err))))
       ∧ status_URL (hr_Status (obj (reconcileArtifact lib r st).2))
         = status_URL (hr_Status (obj st)))
    ∧ (ELock (Some err) ∈ new_effects st (reconcileArtifact lib r st).2 →
       (reconcileArtifact lib r st).1
       = (ResultEmpty, Some (Event FailedReason "failed to acquire lock for artifact" err))
       ∧ conditions_Get (obj (reconcileArtifact lib r st).2)
           StorageOperationFailedCondition
         = conditions_Get (obj st) StorageOperationFailedCondition
       ∧ status_URL (hr_Status (obj (reconcileArtifact lib r st).2))
         = status_URL (hr_Status (obj st))).
Proof.
  intros st err.
  destruct (reconcileArtifact lib r st) as [ret st'] eqn:Hrun. cbn [fst snd].
  revert Hrun.
  unfold reconcileArtifact, reconcileArtifact_deferred, reconcileArtifact_body,
    reconcileArtifact_locked, Symlink_result, eventLogf.
  explode; intros Hrun; simplify_eq; trace_simpl;
    (split; [|split]); intros Hin; elem_inv;
    cbn [obj upd_obj set_artifact set_chartRepo set_world log];
    conditions_simpl; repeat split; done.
Qed.

(** X5. reconcileArtifact releases what it takes. The lock is released
    exactly as often as it was acquired, at most once; when it was acquired,
    the stage began with the directory creation and the lock and ended with
    the unlock followed by the removal of the temporary index, so that the
    copy, the cache update and the symlink all happened under the lock. The
    temporary index is removed exactly once, as the last call of the stage,
    whatever the outcome. *)
Theorem artifact_releases_resources :
  ∀ st,
    length (filter (λ e, is_lock_acquired e = true)
              (new_effects st (reconcileArtifact lib r st).2))
    = length (filter (λ e, is_unlock e = true)
                (new_effects st (reconcileArtifact lib r st).2))
    ∧ (length (filter (λ e, is_unlock e = true)
                 (new_effects st (reconcileArtifact lib r st).2)) ≤ 1)%nat
    ∧ length (filter (λ e, is_clear e = true)
                (new_effects st (reconcileArtifact lib r st).2)) = 1%nat
    ∧ (∃ err, last (new_effects st (reconcileArtifact lib r st).2) = Some (EClear err))
    ∧ (ELock None ∈ new_effects st (reconcileArtifact lib r st).2 →
       take 2 (new_effects st (reconcileArtifact lib r st).2)
       = [EMkdirAll None; ELock None]
       ∧ ∃ err, drop (length (new_effects st (reconcileArtifact lib r st).2) - 2)
                  (new_effects st (reconcileArtifact lib r st).2)
                = [EUnlock; EClear err])
    ∧ (∀ e, e ∈ new_effects st (reconcileArtifact lib r st).2 →
            is_storage_write e = true ∨ is_cache_set e = true →
            e = EMkdirAll None ∨ (∃ err, e = EMkdirAll (Some err))
            ∨ ELock None ∈ new_effects st (reconcileArtifact lib r st).2).
Proof.
  intros st.
  destruct (reconcileArtifact lib r st) as [ret st'] eqn:Hrun. cbn [fst snd].
  revert Hrun.
  unfold reconcileArtifact, reconcileArtifact_deferred, reconcileArtifact_body,
    reconcileArtifact_locked, Symlink_result, eventLogf.
  explode; intros Hrun; simplify_eq; trace_simpl.
  all: repeat apply conj; try done; try (by eexists); try (vm_compute; lia).
  all: try (intros Hin; elem_inv; try (split; [done|by eexists]); fail).
  all: intros eff Hin [Hw|Hw]; elem_inv; try done; eauto.
  all: right; right; elem_solve.
Qed.

(** X6. The index cache is used only when one is configured. On the
    up-to-date path only the expiration of the entry under the candidate's
    path is extended and nothing is written to storage; an entry is set only
    after a successful copy, under the path of the stored artifact, and a
    failure to set it is recorded as a trace event and does not fail the
    stage. *)
Theorem artifact_cache_discipline :
  ∀ st,
    (∀ e, e ∈ new_effects st (reconcileArtifact lib r st).2 →
          is_cache_call e = true → Cache r = true)
    ∧ (∀ key, ECacheSetExpiration key ∈ new_effects st (reconcileArtifact lib r st).2 →
              key = art_Path (artifact st)
              ∧ (reconcileArtifact lib r st).1 = (ResultSuccess, None)
              ∧ Forall (λ e, is_storage_write e = false ∧ is_cache_set e = false)
                  (new_effects st (reconcileArtifact lib r st).2)
              ∧ obj (reconcileArtifact lib r st).2
                = conditions_MarkTrue
                    (conditions_Delete (obj st) ArtifactOutdatedCondition)
                    ArtifactInStorageCondition SucceededReason
                    ("stored artifact: revision '" ++ art_Revision (artifact st) ++ "'"))
    ∧ (∀ key err, ECacheSet key err ∈ new_effects st (reconcileArtifact lib r st).2 →
                  ECopyFromPath None ∈ new_effects st (reconcileArtifact lib r st).2
                  ∧ key = art_Path (artifact (reconcileArtifact lib r st).2)
                  ∧ (∃ a, status_Artifact (hr_Status (obj (reconcileArtifact lib r st).2))
                          = Some a ∧ key = art_Path a)
                  ∧ (reconcileArtifact lib r st).1 = (ResultSuccess, None)
                  ∧ (err ≠ None →
                     EEvent EventTypeTrace CacheOperationFailedReason
                       ∈ new_effects st (reconcileArtifact lib r st).2)).
Proof.
  intros st.
  destruct (reconcileArtifact lib r st) as [ret st'] eqn:Hrun. cbn [fst snd].
  revert Hrun.
  unfold reconcileArtifact, reconcileArtifact_deferred, reconcileArtifact_body,
    reconcileArtifact_locked, Symlink_result, eventLogf.
  explode; intros Hrun; simplify_eq; trace_simpl.
  all: split; [intros eff Hin Hc; elem_inv; done|].
  all: split; [intros key Hin|intros key err Hin]; elem_inv.
  all: try match goal with
           | H : _ && _ = true |- _ => apply andb_true_iff in H as [? ?]
           end.
  all: try congruence.
  all: repeat apply conj; try done; try (repeat constructor; done);
    try elem_solve; try (by eexists).
Qed.

End ArtifactConditions.

Lemma artifact_success_conditions_witness :
  conditions_Get (obj (reconcileArtifact ex_lib (ex_reconciler ex_ok) ex_candidate).2)
    ArtifactOutdatedCondition = None.
Proof.
  exact (proj1 (proj2 (proj2 (artifact_success_conditions ex_lib (ex_reconciler ex_ok)
                                ex_candidate eq_refl)))).
Defined.

Lemma artifact_failure_conditions_witness :
  conditions_Get
    (obj (reconcileArtifact ex_lib (ex_reconciler ex_mkdir_fails) ex_candidate).2)
    StorageOperationFailedCondition
  = Some (mkCondition StorageOperationFailedCondition "True" DirCreationFailedReason
            "failed to create artifact directory: read-only").
Proof.
  assert (EMkdirAll (Some (Err "read-only"))
            ∈ new_effects ex_candidate
                (reconcileArtifact ex_lib (ex_reconciler ex_mkdir_fails) ex_candidate).2)
    as Hin by (vm_compute; elem_solve).
  exact (proj1 (proj1 (artifact_failure_conditions ex_lib (ex_reconciler ex_mkdir_fails)
                         ex_candidate (Err "read-only")) Hin)).
Defined.

Lemma artifact_releases_resources_witness :
  take 2 (new_effects ex_candidate
            (reconcileArtifact ex_lib (ex_reconciler ex_ok) ex_candidate).2)
  = [EMkdirAll None; ELock None].
Proof.
  assert (ELock None
            ∈ new_effects ex_candidate
                (reconcileArtifact ex_lib (ex_reconciler ex_ok) ex_candidate).2)
    as Hin by (vm_compute; elem_solve).
  exact (proj1 (proj1 (proj2 (proj2 (proj2 (proj2
           (artifact_releases_resources ex_lib (ex_reconciler ex_ok) ex_candidate)))))
           Hin)).
Defined.

Lemma artifact_cache_discipline_witness :
  ECopyFromPath None
    ∈ new_effects ex_candidate
        (reconcileArtifact ex_lib (ex_reconciler ex_ok) ex_candidate).2.
Proof.
  assert (ECacheSet "HelmRepository/default/repo/index-B.yaml" None
            ∈ new_effects ex_candidate
                (reconcileArtifact ex_lib (ex_reconciler ex_ok) ex_candidate).2)
    as Hin by (vm_compute; elem_solve).
  exact (proj1 (proj2 (proj2 (artifact_cache_discipline ex_lib (ex_reconciler ex_ok)
                                ex_candidate)) _ _ Hin)).
Defined.

(** ** The source stage *)

Section SourceStage.
Context {W : Type} (lib : Library) (r : HelmRepositoryReconciler W).
Implicit Types st : PassState W.

(** X7. Whenever reconcileSource returns an error, the result is the empty
    one, the candidate slot and the status artifact and URL are untouched, and
    either the error is the one of its patch call or FetchFailed is True on
    the object with the reason of the returned error and, as message, the
    text of that error taken as a format without operands (so a verb in the
    text, as in the text of the revision failure, is not kept as it is). A
    failure to get the secret, to download the index or to load it is
    returned as an Event error wrapping the collaborator's error; only a
    failure to construct the chart repository is returned as Stalling, with
    the reason URLInvalid exactly when the construction failed with a URL
    error. *)
Theorem source_failure_marks_fetch_failed :
  ∀ st e,
    (reconcileSource lib r st).1.2 = Some e →
    (reconcileSource lib r st).1.1 = ResultEmpty
    ∧ artifact (reconcileSource lib r st).2 = artifact st
    ∧ GetArtifact (obj (reconcileSource lib r st).2) = GetArtifact (obj st)
    ∧ status_URL (hr_Status (obj (reconcileSource lib r st).2))
      = status_URL (hr_Status (obj st))
    ∧ (EPatch (Some e) ∈ new_effects st (reconcileSource lib r st).2
       ∨ conditions_Get (obj (reconcileSource lib r st).2) FetchFailedCondition
         = Some (mkCondition FetchFailedCondition "True" (error_reason e)
                   (fmt_Sprintf lib (error_Error e))))
    ∧ (∀ c, EGetSecret (Some c) ∈ new_effects st (reconcileSource lib r st).2 →
            ∃ context, e = Event AuthenticationFailedReason context c)
    ∧ (∀ c, ECacheIndex (Some c) ∈ new_effects st (reconcileSource lib r st).2 →
            e = Event FailedReason "failed to fetch Helm repository index" c)
    ∧ (∀ c, ELoadFromPath (Some c) ∈ new_effects st (reconcileSource lib r st).2 →
            e = Event IndexationFailedReason
                  "failed to load Helm repository from index YAML" c)
    ∧ (∀ c, ENewChartRepository (Some c) ∈ new_effects st (reconcileSource lib r st).2 →
            (∃ reason context, e = Stalling reason context c)
            ∧ (error_reason e = URLInvalidReason ↔ ∃ msg, c = UrlError msg)).
Proof.
  intros st e.
  destruct (reconcileSource lib r st) as [ret st'] eqn:Hrun. cbn [fst snd].
  revert Hrun.
  unfold reconcileSource, reconcileSource_fetch, fetchFailed, patch. hide_options.
  explode; intros Hrun Hret; simplify_eq; cbn [fst snd] in *; simplify_eq; trace_simpl.
  all: cbn [obj artifact upd_obj log set_world set_artifact set_chartRepo].
  all: repeat apply conj; try reflexivity.
  all: try (unfold GetArtifact, progressiveStatus in *; simpl; done).
  all: try (intros cause Hin; elem_inv; eauto; fail).
  all: try (first [left; elem_solve | right; conditions_simpl; reflexivity]).
  all: intros cause Hin; elem_inv; (split; [by eexists _, _|]).
  all: split; [try discriminate; by eexists|intros [m Hm]; try discriminate; done].
Qed.

(** X8. When reconcileSource succeeds, the index was downloaded, and either
    the candidate is the artifact of the status itself, whose digest is valid
    and is the digest of the downloaded index under its own algorithm, and
    the index was not loaded; or the index was loaded without error, its
    canonical digest is valid, and the candidate is the artifact the storage
    names for that digest as revision and the file index-<hex>.yaml. *)
Theorem source_success_candidate :
  ∀ st,
    (reconcileSource lib r st).1 = (ResultSuccess, None) →
    ECacheIndex None ∈ new_effects st (reconcileSource lib r st).2
    ∧ ((GetArtifact (obj st) = Some (artifact (reconcileSource lib r st).2)
        ∧ digest_Validate lib (currentDigest lib (artifact (reconcileSource lib r st).2))
          = true
        ∧ ChartRepository_Digest lib (chartRepo (reconcileSource lib r st).2)
            (digest_Algorithm lib
               (currentDigest lib (artifact (reconcileSource lib r st).2)))
          = currentDigest lib (artifact (reconcileSource lib r st).2)
        ∧ ∀ err, ELoadFromPath err ∉ new_effects st (reconcileSource lib r st).2)
       ∨ (ELoadFromPath None ∈ new_effects st (reconcileSource lib r st).2
          ∧ digest_Validate lib
              (ChartRepository_Digest lib (chartRepo (reconcileSource lib r st).2)
                 (Canonical lib)) = true
          ∧ artifact (reconcileSource lib r st).2
            = Storage_NewArtifactFor r (world (reconcileSource lib r st).2)
                (hr_Kind (obj st)) (meta_Namespace (obj st)) (meta_Name (obj st))
                (ChartRepository_Digest lib (chartRepo (reconcileSource lib r st).2)
                   (Canonical lib))
                ("index-"
                 ++ digest_Hex lib
                      (ChartRepository_Digest lib
                         (chartRepo (reconcileSource lib r st).2) (Canonical lib))
                 ++ ".yaml"))).
Proof.
  intros st.
  destruct (reconcileSource lib r st) as [ret st'] eqn:Hrun. cbn [fst snd].
  revert Hrun.
  unfold reconcileSource, reconcileSource_fetch, fetchFailed, patch. hide_options.
  explode; intros Hrun Hret; simplify_eq; cbn [fst snd] in *; simplify_eq; trace_simpl.
  all: cbn [obj artifact chartRepo world upd_obj log set_world set_artifact set_chartRepo].
  all: (split; [elem_solve|]).
  all: rewrite ?negb_false_iff, ?negb_true_iff, ?andb_true_iff in *.
  all: first
    [ left; destruct_and?;
      repeat apply conj; try done;
      [ by match goal with H : bool_decide _ = true |- _ =>
             apply bool_decide_eq_true in H end
      | intros err Hin; elem_inv ]
    | right; repeat apply conj; [elem_solve|done|reflexivity] ].
Qed.

End SourceStage.

Lemma source_failure_marks_fetch_failed_witness :
  (reconcileSource ex_lib (ex_reconciler ex_download_fails) (ex_state ex_stored)).1.1
    = ResultEmpty
  ∧ GetArtifact
      (obj (reconcileSource ex_lib (ex_reconciler ex_download_fails)
              (ex_state ex_stored)).2)
    = Some ex_artifact.
Proof.
  destruct (source_failure_marks_fetch_failed ex_lib (ex_reconciler ex_download_fails)
              (ex_state ex_stored)
              (Event FailedReason "failed to fetch Helm repository index"
                 (Err "connection refused")) eq_refl)
    as (Hres & _ & Hart & _).
  split; [exact Hres|exact Hart].
Defined.

Lemma source_success_candidate_witness :
  ECacheIndex None
    ∈ new_effects (ex_state ex_fresh)
        (reconcileSource ex_lib (ex_reconciler ex_ok) (ex_state ex_fresh)).2.
Proof.
  exact (proj1 (source_success_candidate ex_lib (ex_reconciler ex_ok)
                  (ex_state ex_fresh) eq_refl)).
Defined.

(** ** The storage stage, the persist step and the garbage collection *)

Section StorageStage.
Context {W : Type} (lib : Library) (r : HelmRepositoryReconciler W).
Implicit Types st : PassState W.

(** X9. reconcileStorage ends in one of two ways. Either the status has no
    artifact, a patch was attempted and ArtifactInStorage is gone; or the
    status has an artifact, in which case no patch was attempted, the stage
    succeeded, the storage reported the artifact present, and the artifact,
    the URL and the conditions are those the object had, but for the
    artifact's URL and the hostname of the status URL, which the storage
    rewrote. When the storage reports the artifact absent, artifact and URL
    are cleared. The stage returns an error exactly when its patch failed. *)
Theorem storage_stage_outcome :
  ∀ st,
    (status_Artifact (hr_Status (obj (reconcileStorage lib r st).2)) = None
     ↔ ∃ e, EPatch e ∈ new_effects st (reconcileStorage lib r st).2)
    ∧ (status_Artifact (hr_Status (obj (reconcileStorage lib r st).2)) = None →
       conditions_Get (obj (reconcileStorage lib r st).2) ArtifactInStorageCondition
       = None)
    ∧ (∀ a', status_Artifact (hr_Status (obj (reconcileStorage lib r st).2)) = Some a' →
             (reconcileStorage lib r st).1 = (ResultSuccess, None)
             ∧ EArtifactExist true ∈ new_effects st (reconcileStorage lib r st).2
             ∧ status_Conditions (hr_Status (obj (reconcileStorage lib r st).2))
               = status_Conditions (hr_Status (obj st))
             ∧ status_URL (hr_Status (obj (reconcileStorage lib r st).2))
               = Storage_SetHostname r (world (reconcileStorage lib r st).2)
                   (status_URL (hr_Status (obj st)))
             ∧ ∃ a, GetArtifact (obj st) = Some a
                    ∧ a' = Storage_SetArtifactURL r
                             (world (reconcileStorage lib r st).2) a)
    ∧ (EArtifactExist false ∈ new_effects st (reconcileStorage lib r st).2 →
       status_Artifact (hr_Status (obj (reconcileStorage lib r st).2)) = None
       ∧ status_URL (hr_Status (obj (reconcileStorage lib r st).2)) = "")
    ∧ (∀ e, (reconcileStorage lib r st).1.2 = Some e
            ↔ EPatch (Some e) ∈ new_effects st (reconcileStorage lib r st).2).
Proof.
  intros st.
  destruct (reconcileStorage lib r st) as [ret st'] eqn:Hrun. cbn [fst snd].
  revert Hrun.
  unfold reconcileStorage, garbageCollect, patch, eventLogf.
  explode; intros Hrun; simplify_eq/=; trace_simpl.
  all: cbn [obj world upd_obj log set_world].
  all: unfold GetArtifact, progressiveStatus in *; simpl in *.
  all: rewrite ?negb_true_iff, ?negb_false_iff in *.
  all: repeat match goal with
              | H : Storage_ArtifactExist _ _ _ = _ |- _ => rewrite H in *; clear H
              end.
  all: repeat apply conj.
  all: try solve [ split; [intros; eexists; elem_solve
                          |intros [? Hin]; elem_inv; congruence] ].
  all: try solve [ split; [intros; congruence|intros [? Hin]; elem_inv] ].
  all: try solve [ intros; first [congruence | apply conditions_Get_Delete] ].
  all: try solve [ intros ? ?; simplify_eq;
                   first [ congruence
                         | repeat apply conj; try done; [elem_solve|by eexists] ] ].
  all: try solve [ intros Hin; elem_inv; done ].
  all: try solve [ intros ?; split; intros Hin; simplify_eq; elem_inv; try done;
                   try elem_solve ].
  all: try solve [ intros; eexists; elem_solve ].
  all: try solve [ intros [? Hin]; elem_inv ].
Qed.

(** X10. Before the sub-reconcilers run, reconcile patches the object at
    most once: exactly when the generation differs from the observed
    generation or the reconcile request annotation (empty when absent)
    differs from the last handled token. If that patch fails, the pass ends
    there with the empty result and the error of the patch, whatever
    sub-reconcilers were given, and nothing else is called. *)
Theorem persist_patches_when_requested :
  ∀ st,
    ((meta_Generation (obj st) ≠ status_ObservedGeneration (hr_Status (obj st))
      ∨ default "" (meta_Annotations (obj st) !! ReconcileRequestAnnotation)
        ≠ status_LastHandledReconcileAt (hr_Status (obj st))) →
     new_effects st (reconcile_persist lib r st).2
     = [EPatch (reconcile_persist lib r st).1])
    ∧ (meta_Generation (obj st) = status_ObservedGeneration (hr_Status (obj st)) →
       default "" (meta_Annotations (obj st) !! ReconcileRequestAnnotation)
       = status_LastHandledReconcileAt (hr_Status (obj st)) →
       new_effects st (reconcile_persist lib r st).2 = []
       ∧ (reconcile_persist lib r st).1 = None)
    ∧ (∀ reconcilers e,
         (reconcile_persist lib r st).1 = Some e →
         reconcile lib r reconcilers st
         = ((ResultEmpty, Some e), (reconcile_persist lib r st).2)
         ∧ new_effects st (reconcile lib r reconcilers st).2 = [EPatch (Some e)]).
Proof.
  intros st.
  assert (∀ reconcilers e,
            (reconcile_persist lib r st).1 = Some e →
            reconcile lib r reconcilers st
            = ((ResultEmpty, Some e), (reconcile_persist lib r st).2)) as Hrec.
  { intros recs e He. unfold reconcile.
    destruct (reconcile_persist lib r st) as [[e'|] st2]; by simplify_eq/=. }
  split; [|split].
  - unfold reconcile_persist, patch, progressiveStatus. simpl.
    intros Hne. explode; trace_simpl; try done.
    rewrite ?negb_false_iff, ?bool_decide_eq_true in *. by destruct Hne.
  - intros Hg Ha. unfold reconcile_persist, patch, progressiveStatus. simpl.
    rewrite !bool_decide_eq_true_2 by done. simpl. by rewrite new_effects_app with (l := []);
      [|simpl; by rewrite app_nil_r].
  - intros recs e He. split; [by apply Hrec|]. rewrite (Hrec recs e He). cbn [snd].
    revert He. unfold reconcile_persist, patch, progressiveStatus. simpl.
    explode; intros He; simplify_eq/=; by trace_simpl.
Qed.

(** X11. In steady state (object not marked for deletion, type unset or
    default) garbageCollect never changes the object. Without an artifact in
    the status it calls nothing and returns no error; with one it calls the
    retention collection of the storage first, for that artifact, and returns
    an error exactly when that call failed, wrapping its error. *)
Theorem garbageCollect_retention :
  ∀ st,
    steady (obj st) →
    obj (garbageCollect r st).2 = obj st
    ∧ (GetArtifact (obj st) = None → garbageCollect r st = (None, st))
    ∧ (∀ a, GetArtifact (obj st) = Some a →
            ∃ err, take 1 (new_effects st (garbageCollect r st).2) = [EGarbageCollect err]
                   ∧ err = (Storage_GarbageCollect r (world st) a).1.2
                   ∧ (garbageCollect r st).1
                     = option_map (Event "GarbageCollectionFailed"
                                     "garbage collection of artifacts failed") err).
Proof.
  intros st Hs. unfold garbageCollect, eventLogf.
  rewrite (purge_condition_false _ Hs).
  explode; repeat apply conj; try done.
  all: intros a' Ha'; simplify_eq; trace_simpl; eexists;
    repeat apply conj; try reflexivity;
    match goal with H : Storage_GarbageCollect _ _ _ = _ |- _ => by rewrite H end.
Qed.

End StorageStage.

Lemma storage_stage_outcome_witness :
  status_Artifact
    (hr_Status (obj (reconcileStorage ex_lib (ex_reconciler ex_missing)
                       (ex_state ex_stored)).2)) = None
  ∧ status_URL
      (hr_Status (obj (reconcileStorage ex_lib (ex_reconciler ex_missing)
                         (ex_state ex_stored)).2)) = "".
Proof.
  assert (EArtifactExist false
            ∈ new_effects (ex_state ex_stored)
                (reconcileStorage ex_lib (ex_reconciler ex_missing) (ex_state ex_stored)).2)
    as Hin by (vm_compute; elem_solve).
  exact (proj1 (proj2 (proj2 (proj2 (storage_stage_outcome ex_lib
                  (ex_reconciler ex_missing) (ex_state ex_stored))))) Hin).
Defined.

Lemma persist_patches_when_requested_witness :
  reconcile ex_lib (ex_reconciler ex_patch_fails) [ex_tamper_stage] (ex_state ex_fresh)
  = ((ResultEmpty, Some (Err "conflict")),
     (reconcile_persist ex_lib (ex_reconciler ex_patch_fails) (ex_state ex_fresh)).2).
Proof.
  exact (proj1 (proj2 (proj2 (persist_patches_when_requested ex_lib
                  (ex_reconciler ex_patch_fails) (ex_state ex_fresh)))
                  [ex_tamper_stage] (Err "conflict") eq_refl)).
Defined.

Lemma garbageCollect_retention_witness :
  obj (garbageCollect (ex_reconciler ex_gc_fails) (ex_state ex_stored)).2 = ex_stored.
Proof.
  refine (proj1 (garbageCollect_retention (ex_reconciler ex_gc_fails)
                   (ex_state ex_stored) _)).
  split; [reflexivity|right; reflexivity].
Defined.

(** ** Deletion, migration and the event filters *)

Section DeletionPath.
Context {W : Type} (lib : Library) (r : HelmRepositoryReconciler W).
Implicit Types st : PassState W.

(** X12. reconcileDelete, on an object marked for deletion or of an
    unsupported type, first asks the storage to remove all artifacts of the
    object (the artifact of its kind, namespace and name with every file),
    exactly once, and calls nothing else but the recorder of the removal
    event: no fetch, no patch, no write. It returns the empty result, with
    an error exactly when the removal failed, and it leaves the spec, the
    observed generation and the last handled reconcile token of the status
    and the two shared slots as they were. *)
Theorem deletion_path_only_purges :
  ∀ st,
    DeletionTimestamp_IsZero (obj st) = false
    ∨ (spec_Type (hr_Spec (obj st)) ≠ ""
       ∧ spec_Type (hr_Spec (obj st)) ≠ HelmRepositoryTypeDefault) →
    Forall (λ e, is_purge_effect e = true) (new_effects st (reconcileDelete r st).2)
    ∧ take 1 (new_effects st (reconcileDelete r st).2)
      = [ERemoveAll
           (Storage_RemoveAll r (world st)
              (Storage_NewArtifactFor r (world st) (hr_Kind (obj st))
                 (meta_Namespace (obj st)) (meta_Name (obj st)) "" "*")).1.2]
    ∧ length (filter (λ e, is_purge e = true) (new_effects st (reconcileDelete r st).2))
      = 1%nat
    ∧ (reconcileDelete r st).1.1 = ResultEmpty
    ∧ ((reconcileDelete r st).1.2 = None
       ↔ ERemoveAll None ∈ new_effects st (reconcileDelete r st).2)
    ∧ hr_Spec (obj (reconcileDelete r st).2) = hr_Spec (obj st)
    ∧ status_ObservedGeneration (hr_Status (obj (reconcileDelete r st).2))
      = status_ObservedGeneration (hr_Status (obj st))
    ∧ status_LastHandledReconcileAt (hr_Status (obj (reconcileDelete r st).2))
      = status_LastHandledReconcileAt (hr_Status (obj st))
    ∧ artifact (reconcileDelete r st).2 = artifact st
    ∧ chartRepo (reconcileDelete r st).2 = chartRepo st.
Proof.
  intros st Hp. apply purge_condition_true in Hp.
  unfold reconcileDelete, garbageCollect, eventLogf.
  rewrite Hp.
  explode; trace_simpl; repeat apply conj; try done; repeat constructor;
    try (intros Hin; elem_inv; fail); try elem_solve.
Qed.

End DeletionPath.

Lemma RequireMigration_not_default (hr : HelmRepository) :
  HelmRepositoryOCIRequireMigration (HelmRepositoryObject hr) = true →
  helmRepositoryTypeFilter HelmRepositoryTypeDefault (HelmRepositoryObject hr) = false
  ∧ helmRepositoryTypeFilter "" (HelmRepositoryObject hr) = false.
Proof.
  intros [Ht _]%HelmRepositoryOCIRequireMigration_spec. simpl. rewrite Ht. done.
Qed.

(** X14. The four methods of a type predicate agree: each accepts exactly
    the HelmRepository objects of its type, and Update looks at the new
    object only. The event filter of the reconciler and the migration
    predicate exclude each other on Create, Update and Delete events: no
    event passes both, whatever the change predicates are and whatever
    function fields the predicates embed. *)
Theorem type_filter_excludes_migration :
  ∀ (h : HelmRepositoryTypePredicate) (p : HelmRepositoryOCIMigrationPredicate)
    (generationChanged reconcileRequested : AnyPredicate)
    (o old old' : client_Object) (unknown : bool),
    (Create h (mkCreateEvent o) = true
     ↔ ∃ hr, o = HelmRepositoryObject hr ∧ spec_Type (hr_Spec hr) = RepositoryType h)
    ∧ Update h (mkUpdateEvent old o) = Create h (mkCreateEvent o)
    ∧ Update h (mkUpdateEvent old o) = Update h (mkUpdateEvent old' o)
    ∧ Delete h (mkDeleteEvent o unknown) = Create h (mkCreateEvent o)
    ∧ Generic h (mkGenericEvent o) = Create h (mkCreateEvent o)
    ∧ Update p (mkUpdateEvent old o) = Update p (mkUpdateEvent old' o)
    ∧ (any_Create (eventFilter generationChanged reconcileRequested) (mkCreateEvent o)
       && Create p (mkCreateEvent o) = false)
    ∧ (any_Update (eventFilter generationChanged reconcileRequested)
         (mkUpdateEvent old o)
       && Update p (mkUpdateEvent old o) = false)
    ∧ (any_Delete (eventFilter generationChanged reconcileRequested)
         (mkDeleteEvent o unknown)
       && Delete p (mkDeleteEvent o unknown) = false).
Proof.
  intros h p gen req o old old' unknown.
  split.
  { destruct o as [|hr|k]; simpl.
    - split; [done|]. by intros (hr & Heq & _).
    - rewrite bool_decide_eq_true. split.
      + intros Ht. by exists hr.
      + intros (hr' & Heq & Ht). by simplify_eq.
    - split; [done|]. by intros (hr & Heq & _). }
  repeat apply conj; try (by destruct o).
  - destruct o as [|hr|k]; [done| |done].
    change (Create p (mkCreateEvent (HelmRepositoryObject hr)))
      with (HelmRepositoryOCIRequireMigration (HelmRepositoryObject hr)).
    destruct (HelmRepositoryOCIRequireMigration (HelmRepositoryObject hr)) eqn:Hm;
      [|apply andb_false_r].
    destruct (RequireMigration_not_default hr Hm) as [H1 H2].
    change (any_Create (eventFilter gen req) (mkCreateEvent (HelmRepositoryObject hr)))
      with ((helmRepositoryTypeFilter HelmRepositoryTypeDefault (HelmRepositoryObject hr)
             || (helmRepositoryTypeFilter "" (HelmRepositoryObject hr) || false))
            && ((any_Create gen (mkCreateEvent (HelmRepositoryObject hr))
                 || (any_Create req (mkCreateEvent (HelmRepositoryObject hr)) || false))
                && true)).
    by rewrite H1, H2.
  - destruct o as [|hr|k]; [done| |done].
    change (Update p (mkUpdateEvent old (HelmRepositoryObject hr)))
      with (HelmRepositoryOCIRequireMigration (HelmRepositoryObject hr)).
    destruct (HelmRepositoryOCIRequireMigration (HelmRepositoryObject hr)) eqn:Hm;
      [|apply andb_false_r].
    destruct (RequireMigration_not_default hr Hm) as [H1 H2].
    change (any_Update (eventFilter gen req)
              (mkUpdateEvent old (HelmRepositoryObject hr)))
      with ((helmRepositoryTypeFilter HelmRepositoryTypeDefault (HelmRepositoryObject hr)
             || (helmRepositoryTypeFilter "" (HelmRepositoryObject hr) || false))
            && ((any_Update gen (mkUpdateEvent old (HelmRepositoryObject hr))
                 || (any_Update req (mkUpdateEvent old (HelmRepositoryObject hr))
                     || false))
                && true)).
    by rewrite H1, H2.
  - destruct o as [|hr|k]; [done| |done].
    change (Delete p (mkDeleteEvent (HelmRepositoryObject hr) unknown))
      with (HelmRepositoryOCIRequireMigration (HelmRepositoryObject hr)).
    destruct (HelmRepositoryOCIRequireMigration (HelmRepositoryObject hr)) eqn:Hm;
      [|apply andb_false_r].
    destruct (RequireMigration_not_default hr Hm) as [H1 H2].
    change (any_Delete (eventFilter gen req)
              (mkDeleteEvent (HelmRepositoryObject hr) unknown))
      with ((helmRepositoryTypeFilter HelmRepositoryTypeDefault (HelmRepositoryObject hr)
             || (helmRepositoryTypeFilter "" (HelmRepositoryObject hr) || false))
            && ((any_Delete gen (mkDeleteEvent (HelmRepositoryObject hr) unknown)
                 || (any_Delete req (mkDeleteEvent (HelmRepositoryObject hr) unknown)
                     || false))
                && true)).
    by rewrite H1, H2.
Qed.

Lemma deletion_path_only_purges_witness :
  length (filter (λ e, is_purge e = true)
            (new_effects (ex_state ex_deleted)
               (reconcileDelete (ex_reconciler ex_ok) (ex_state ex_deleted)).2))
  = 1%nat.
Proof.
  exact (proj1 (proj2 (proj2 (deletion_path_only_purges (ex_reconciler ex_ok)
                                (ex_state ex_deleted) (or_introl eq_refl))))).
Defined.

(** ** Where the artifact of the status comes from *)

Section Provenance.
Context {W : Type} (lib : Library) (r : HelmRepositoryReconciler W).
Implicit Types st : PassState W.

Lemma extends_refl st : extends st st.
Proof. exists []. by rewrite app_nil_r. Qed.

Lemma extends_trans st1 st2 st3 : extends st1 st2 → extends st2 st3 → extends st1 st3.
Proof. intros [l1 H1] [l2 H2]. exists (l1 ++ l2)%list. by rewrite H2, H1, app_assoc. Qed.

Lemma new_effects_mono st0 st st' (e : Effect) :
  extends st0 st → extends st st' → e ∈ new_effects st st' → e ∈ new_effects st0 st'.
Proof.
  intros [l1 H1] [l2 H2] Hin.
  rewrite (new_effects_app _ _ _ H2) in Hin.
  rewrite (new_effects_app st0 st' (l1 ++ l2)) by (by rewrite H2, H1, app_assoc).
  apply elem_of_app. by right.
Qed.

(** Close a goal [extends st st'] on an explicit state [st']. *)
Ltac extends_solve :=
  eexists; cbn [trace log set_world upd_obj set_artifact set_chartRepo];
  rewrite <- ?app_assoc; first [reflexivity | symmetry; apply app_nil_r].

Lemma reconcileStorage_extends st : extends st (reconcileStorage lib r st).2.
Proof.
  unfold reconcileStorage, garbageCollect, patch, eventLogf. explode; extends_solve.
Qed.

Lemma reconcileSource_extends st : extends st (reconcileSource lib r st).2.
Proof.
  unfold reconcileSource, reconcileSource_fetch, fetchFailed, patch. hide_options.
  explode; extends_solve.
Qed.

Lemma reconcileArtifact_extends st : extends st (reconcileArtifact lib r st).2.
Proof.
  unfold reconcileArtifact, reconcileArtifact_deferred, reconcileArtifact_body,
    reconcileArtifact_locked, Symlink_result, eventLogf.
  explode; extends_solve.
Qed.

Lemma reconcile_persist_extends st : extends st (reconcile_persist lib r st).2.
Proof. unfold reconcile_persist, patch. explode; extends_solve. Qed.

Lemma notify_extends oldObj res resErr st : extends st (notify lib oldObj res resErr st).
Proof. unfold notify. explode; extends_solve. Qed.

Lemma reconcile_persist_artifact st :
  GetArtifact (obj (reconcile_persist lib r st).2) = GetArtifact (obj st).
Proof. unfold reconcile_persist, patch. explode; done. Qed.

Lemma reconcileStorage_artifact st :
  status_Artifact (hr_Status (obj (reconcileStorage lib r st).2)) = None
  ∨ ∃ a, GetArtifact (obj st) = Some a
         ∧ status_Artifact (hr_Status (obj (reconcileStorage lib r st).2))
           = Some (Storage_SetArtifactURL r (world (reconcileStorage lib r st).2) a).
Proof.
  unfold reconcileStorage, garbageCollect, patch, eventLogf, GetArtifact.
  explode; first [by left | right; by eexists].
Qed.

Lemma reconcileSource_artifact st :
  status_Artifact (hr_Status (obj (reconcileSource lib r st).2))
  = status_Artifact (hr_Status (obj st)).
Proof.
  unfold reconcileSource, reconcileSource_fetch, fetchFailed, patch. hide_options. explode; done.
Qed.

Lemma reconcileArtifact_artifact st :
  status_Artifact (hr_Status (obj (reconcileArtifact lib r st).2))
  = status_Artifact (hr_Status (obj st))
  ∨ (ECopyFromPath None ∈ new_effects st (reconcileArtifact lib r st).2
     ∧ status_Artifact (hr_Status (obj (reconcileArtifact lib r st).2))
       = Some (artifact (reconcileArtifact lib r st).2)
     ∧ ∃ w w', Storage_CopyFromPath r w (artifact st) (cr_Path (chartRepo st))
               = ((None, artifact (reconcileArtifact lib r st).2), w')).
Proof.
  unfold reconcileArtifact, reconcileArtifact_deferred, reconcileArtifact_body,
    reconcileArtifact_locked, Symlink_result, eventLogf.
  explode;
    first [ by left
          | right; split; [trace_simpl; elem_solve|];
            split; [reflexivity|]; eexists _, _; eassumption ].
Qed.

Lemma notify_artifact oldObj res resErr st :
  artifact (notify lib oldObj res resErr st) = artifact st.
Proof. unfold notify. explode; done. Qed.

(** X16. The artifact a pass over the three sub-reconcilers leaves in the
    status is either the one that a successful copy into storage handed back
    during the pass, which is then also the artifact of the shared slot at
    the end of the pass, or the artifact the object had on entry, as it was
    or with the URL the storage rewrote: the pass never invents an artifact
    reference. *)
Theorem pass_artifact_provenance :
  ∀ st a',
    status_Artifact
      (hr_Status (obj (reconcile lib r [reconcileStorage lib r; reconcileSource lib r;
                                         reconcileArtifact lib r] st).2)) = Some a' →
    (ECopyFromPath None
       ∈ new_effects st (reconcile lib r [reconcileStorage lib r; reconcileSource lib r;
                                          reconcileArtifact lib r] st).2
     ∧ a' = artifact (reconcile lib r [reconcileStorage lib r; reconcileSource lib r;
                                       reconcileArtifact lib r] st).2
     ∧ ∃ w candidate path w',
         Storage_CopyFromPath r w candidate path = ((None, a'), w'))
    ∨ ∃ a, GetArtifact (obj st) = Some a
           ∧ (a' = a ∨ ∃ w, a' = Storage_SetArtifactURL r w a).
Proof.
  intros st a'. unfold reconcile.
  pose proof (reconcile_persist_artifact st) as Hpa.
  pose proof (reconcile_persist_extends st) as Hpe.
  destruct (reconcile_persist lib r st) as [[err|] st2]; cbn [fst snd] in Hpa, Hpe.
  { cbn [fst snd]. intros Ha. right. exists a'. split; [by rewrite <- Hpa|by left]. }
  set (st3 := set_artifact _ _).
  assert (extends st st3) as He3 by exact Hpe.
  assert (GetArtifact (obj st3) = GetArtifact (obj st)) as Ha3 by exact Hpa.
  clearbody st3. clear Hpa Hpe st2. cbn [reconcile_loop].
  pose proof (reconcileStorage_artifact st3) as H1.
  pose proof (reconcileStorage_extends st3) as E1.
  destruct (reconcileStorage lib r st3) as [[r1 e1] s1]. cbn [fst snd] in H1, E1.
  assert (∀ s : PassState W,
            status_Artifact (hr_Status (obj s)) = status_Artifact (hr_Status (obj s1)) →
               status_Artifact (hr_Status (obj s)) = Some a' →
               ∃ a, GetArtifact (obj st) = Some a
                    ∧ (a' = a ∨ ∃ w, a' = Storage_SetArtifactURL r w a)) as Hold.
  { intros s Hs Ha. rewrite Hs in Ha. destruct H1 as [H1|(a & Hga & H1)]; [congruence|].
    exists a. split; [by rewrite <- Ha3|]. right. exists (world s1). congruence. }
  case_bool_decide; [cbn [fst snd]; intros Ha; right; by apply (Hold s1)|].
  destruct e1 as [e1|].
  { cbn [fst snd]. rewrite notify_obj. intros Ha. right. by apply (Hold s1). }
  pose proof (reconcileSource_artifact s1) as H2.
  pose proof (reconcileSource_extends s1) as E2.
  destruct (reconcileSource lib r s1) as [[r2 e2] s2]. cbn [fst snd] in H2, E2.
  case_bool_decide; [cbn [fst snd]; intros Ha; right; by apply (Hold s2)|].
  destruct e2 as [e2|].
  { cbn [fst snd]. rewrite notify_obj. intros Ha. right. by apply (Hold s2). }
  pose proof (reconcileArtifact_artifact s2) as H3.
  pose proof (reconcileArtifact_extends s2) as E3.
  destruct (reconcileArtifact lib r s2) as [[r3 e3] s3]. cbn [fst snd] in H3, E3.
  assert (extends st s2) as Es2
    by (eapply extends_trans; [exact He3|]; eapply extends_trans; [exact E1|exact E2]).
  assert (∀ s : PassState W, extends s3 s →
               status_Artifact (hr_Status (obj s)) = status_Artifact (hr_Status (obj s3)) →
               artifact s = artifact s3 →
               status_Artifact (hr_Status (obj s)) = Some a' →
               (ECopyFromPath None ∈ new_effects st s
                ∧ a' = artifact s
                ∧ ∃ w candidate path w',
                    Storage_CopyFromPath r w candidate path = ((None, a'), w'))
               ∨ ∃ a, GetArtifact (obj st) = Some a
                      ∧ (a' = a ∨ ∃ w, a' = Storage_SetArtifactURL r w a)) as Hnew.
  { intros s Es Hs Hslot Ha. destruct H3 as [H3|(H3 & Hst & (w & w' & Hcopy))].
    - right. apply (Hold s); [congruence|done].
    - left.
      assert (a' = artifact s3) as -> by congruence.
      split; [|split; [by rewrite Hslot|eexists w, (artifact s2), _, w'; exact Hcopy]].
      destruct Es as [l Hl].
      apply (new_effects_mono st s2 s); [done|by eapply extends_trans; [exact E3|exists l]|].
      destruct E3 as [l3 Hl3].
      rewrite (new_effects_app _ _ _ Hl3) in H3.
      rewrite (new_effects_app s2 s (l3 ++ l)) by (by rewrite Hl, Hl3, app_assoc).
      apply elem_of_app. by left. }
  case_bool_decide;
    [cbn [fst snd]; intros Ha; by apply (Hnew s3); [apply extends_refl|..]|].
  destruct e3 as [e3|]; cbn [fst snd].
  - rewrite notify_obj, notify_artifact. intros Ha.
    destruct (Hnew (notify lib (obj st) r3 (Some e3) s3)) as [Hc|Ho];
      [apply notify_extends|by rewrite notify_obj|apply notify_artifact
      |by rewrite notify_obj| |by right].
    left. by rewrite notify_artifact in Hc.
  - rewrite notify_obj, notify_artifact. intros Ha.
    destruct (Hnew (notify lib (obj st) (LowestRequeuingResult lib
                      (LowestRequeuingResult lib
                         (LowestRequeuingResult lib Result_zero r1) r2) r3) None s3))
      as [Hc|Ho];
      [apply notify_extends|by rewrite notify_obj|apply notify_artifact
      |by rewrite notify_obj| |by right].
    left. by rewrite notify_artifact in Hc.
Qed.

End Provenance.

Lemma pass_artifact_provenance_witness :
  mkArtifact "HelmRepository/default/repo/index-A.yaml" "" "sha256:A"
    "sha256:A" "sha256:A" 1 (Some 42)
  = artifact (reconcile ex_lib (ex_reconciler ex_ok)
                [reconcileStorage ex_lib (ex_reconciler ex_ok);
                 reconcileSource ex_lib (ex_reconciler ex_ok);
                 reconcileArtifact ex_lib (ex_reconciler ex_ok)] (ex_state ex_fresh)).2
  ∨ ∃ a, GetArtifact (obj (ex_state ex_fresh)) = Some a.
Proof.
  assert (status_Artifact
            (hr_Status
               (obj (reconcile ex_lib (ex_reconciler ex_ok)
                       [reconcileStorage ex_lib (ex_reconciler ex_ok);
                        reconcileSource ex_lib (ex_reconciler ex_ok);
                        reconcileArtifact ex_lib (ex_reconciler ex_ok)]
                       (ex_state ex_fresh)).2))
          = Some (mkArtifact "HelmRepository/default/repo/index-A.yaml" "" "sha256:A"
                    "sha256:A" "sha256:A" 1 (Some 42))) as Ha
    by (vm_compute; reflexivity).
  destruct (pass_artifact_provenance ex_lib (ex_reconciler ex_ok) (ex_state ex_fresh) _ Ha)
    as [(_ & Hslot & _)|(a & Hga & _)].
  - left. exact Hslot.
  - right. exists a. exact Hga.
Defined.
